(** * acorn: the git automation scripts [git_operations.py] and
      [run_git_commands.py]

    Both scripts are straight-line Python: they change into a fixed
    directory, shell out to git through [subprocess.run], test a few paths
    with [os.path.exists] and print progress lines.  Everything they do is
    an interaction with the operating system, so the embedding is a small
    monad over an abstract machine state:

    - the operating system is an interface ([System]): one operation per
      library call the scripts make, each free to change the machine state
      and, where Python can raise, to return an exception instead of a
      value;
    - a script is a computation [Py A]: it takes the machine state and
      yields the events it caused (in order), the final machine state and
      either a value or an uncaught exception;
    - every library call and every [print] is recorded as an [event], so
      that "which commands were issued", "what was printed" and "which
      paths were written" are plain list functions on the trace.

    Modelling choices: [os.path.exists] does not raise (it returns [False]
    on any OS error) and [os.getcwd] is total.  The scripts are embedded at
    two levels.

    - The first carries both scripts whole.  There [print] always succeeds
      and an exception is its text ([str(e)] is all the scripts ever use of
      it): this is a script on a console that takes every line, on a
      machine that is never interrupted.  The statements about steps,
      commands, tests and writes are made at this level.
    - The second ([Precise]) carries the two runners, [run_git_command] and
      [execute_command], once more.  There a print can raise, and what is
      raised is an [Exception], which [except Exception] catches, or
      something else, which it lets through.  What a runner returns, prints
      and lets escape is stated at this level.

    On a host whose console takes every line and that raises [Exception]s
    only, the runners of the second level do what those of the first do
    ([run_git_command_levels], [execute_command_levels]). *)

From Stdlib Require Import String Ascii List ZArith Lia DecimalString DecimalPos
  DecimalZ.
Import ListNotations.
Open Scope string_scope.

Set Implicit Arguments.

(** ** Python strings *)

(** The line feed of ["\n"] and the double quote, which the sources write
    inside string literals. *)
Definition nl : string := String (ascii_of_nat 10) EmptyString.
Definition dq : string := String (ascii_of_nat 34) EmptyString.

(** [s * n] on strings. *)
Fixpoint str_mul (s : string) (n : nat) : string :=
  match n with
  | O => EmptyString
  | S k => s ++ str_mul s k
  end.

(** [sep.join(l)]. *)
Fixpoint join (sep : string) (l : list string) : string :=
  match l with
  | [] => EmptyString
  | [x] => x
  | x :: xs => x ++ sep ++ join sep xs
  end.

(** Truth value of a string: [if s:] holds for the non-empty ones. *)
Definition truthy (s : string) : bool :=
  match s with
  | EmptyString => false
  | String _ _ => true
  end.

(** [str(n)] for an integer. *)
Definition str_of_int (z : Z) : string := NilZero.string_of_int (Z.to_int z).

(** ** The operating system *)

(** [str(e)] of a raised exception. *)
Definition exn : Type := string.

(** [subprocess.CompletedProcess], with the fields the scripts read. *)
Record CompletedProcess : Type := mkCompleted {
  returncode : Z;
  stdout : string;
  stderr : string
}.

(** One field per library call.  [subprocess_run cmd capture cwd] stands for
    [subprocess.run(cmd, shell=True, capture_output=capture, text=True,
    cwd=cwd)]; [open_write p s] for [with open(p, 'w') as f: f.write(s)]. *)
Class System (World : Type) : Type := {
  os_chdir : string -> World -> World * (unit + exn);
  os_getcwd : World -> string;
  os_path_exists : string -> World -> bool;
  os_makedirs : string -> bool -> World -> World * (unit + exn);
  open_write : string -> string -> World -> World * (unit + exn);
  subprocess_run :
    string -> bool -> option string -> World -> World * (CompletedProcess + exn)
}.

(** What a script did, in order. *)
Inductive event : Type :=
| EvChdir (path : string)
| EvGetcwd
| EvExists (path : string)
| EvMakedirs (path : string) (exist_ok : bool)
| EvOpenWrite (path : string) (data : string)
| EvRun (cmd : string) (capture_output : bool) (cwd : option string)
| EvPrint (text : string).

(** ** The script monad *)

Definition Py (World A : Type) : Type :=
  World -> list event * World * (A + exn).

Definition ret {World A} (a : A) : Py World A :=
  fun w => ([], w, inl a).

Definition bind {World A B} (m : Py World A) (f : A -> Py World B)
  : Py World B :=
  fun w =>
    match m w with
    | (t1, w1, inl a) =>
        match f a w1 with
        | (t2, w2, r) => ((t1 ++ t2)%list, w2, r)
        end
    | (t1, w1, inr e) => (t1, w1, inr e)
    end.

(** [try: body  except Exception as e: handler(e)]. *)
Definition try_except {World A} (body : Py World A) (handler : exn -> Py World A)
  : Py World A :=
  fun w =>
    match body w with
    | (t1, w1, inl a) => (t1, w1, inl a)
    | (t1, w1, inr e) =>
        match handler e w1 with
        | (t2, w2, r) => ((t1 ++ t2)%list, w2, r)
        end
    end.

Declare Scope py_scope.
Delimit Scope py_scope with py.
Notation "x <- m ;; k" := (bind m (fun x => k))
  (at level 100, m at next level, right associativity) : py_scope.
Notation "m ;; k" := (bind m (fun _ => k))
  (at level 100, right associativity) : py_scope.
Open Scope py_scope.

(** An [if] with no [else]. *)
Definition when {World} (b : bool) (m : Py World unit) : Py World unit :=
  if b then m else ret tt.

(** The three components of a run. *)
Definition trace_of {World A} (r : list event * World * (A + exn)) : list event :=
  fst (fst r).
Definition world_of {World A} (r : list event * World * (A + exn)) : World :=
  snd (fst r).
Definition value_of {World A} (r : list event * World * (A + exn)) : A + exn :=
  snd r.

(** ** The library calls, as computations *)

Definition print {World} (text : string) : Py World unit :=
  fun w => ([EvPrint text], w, inl tt).

Module os.
Section Calls.
Context {World : Type} `{System World}.

Definition chdir (p : string) : Py World unit :=
      fun w => let (w', r) := os_chdir p w in ([EvChdir p], w', r).

Definition getcwd : Py World string :=
      fun w => ([EvGetcwd], w, inl (os_getcwd w)).

Definition makedirs (p : string) (exist_ok : bool) : Py World unit :=
      fun w => let (w', r) := os_makedirs p exist_ok w in
               ([EvMakedirs p exist_ok], w', r).
End Calls.

Module path.
Section Calls.
Context {World : Type} `{System World}.

      (** [os.path.exists]. *)
Definition exists_ (p : string) : Py World bool :=
        fun w => ([EvExists p], w, inl (os_path_exists p w)).
End Calls.
End path.
End os.

Module subprocess.
Section Calls.
Context {World : Type} `{System World}.

Definition run (cmd : string) (capture_output : bool) (cwd : option string)
      : Py World CompletedProcess :=
      fun w => let (w', r) := subprocess_run cmd capture_output cwd w in
               ([EvRun cmd capture_output cwd], w', r).
End Calls.
End subprocess.

Section Builtins.
Context {World : Type} `{System World}.

  (** [with open(p, 'w') as f: f.write(data)]. *)
Definition write_file (p data : string) : Py World unit :=
    fun w => let (w', r) := open_write p data w in
             ([EvOpenWrite p data], w', r).

  (** [[f for f in l if os.path.exists(f)]]: the tests run left to right. *)
Fixpoint existing (l : list string) : Py World (list string) :=
    match l with
    | [] => ret []
    | f :: fs =>
        b <- os.path.exists_ f ;;
        rest <- existing fs ;;
        ret (if b then f :: rest else rest)
    end.
End Builtins.

(** ** [git_operations.py] *)

Module git_operations.
Section Script.
Context {World : Type} `{System World}.

Definition repo_path : string :=
  "/Users/mistergrinvalds/Repos/personal/bash-profile".

Definition run_git_command (cmd : string) : Py World bool :=
  try_except
    (result <- subprocess.run cmd true None ;;
     print ("Command: " ++ cmd) ;;
     when (truthy (stdout result)) (print ("Output: " ++ stdout result)) ;;
     when (truthy (stderr result)) (print ("Error: " ++ stderr result)) ;;
     print (str_mul "-" 50) ;;
     ret (returncode result =? 0)%Z)
    (fun e =>
       print ("Exception running '" ++ cmd ++ "': " ++ e) ;;
       ret false).

(** [f'git commit -m "{commit_msg}"']. *)
Definition git_commit (commit_msg : string) : string :=
  "git commit -m " ++ dq ++ commit_msg ++ dq.

(** Lines 23-25. *)
Definition check_status : Py World unit :=
  print "=== Checking current git status ===" ;;
  run_git_command "git status" ;;
  ret tt.

(** Lines 27-33. *)
Definition create_branch : Py World unit :=
  print (nl ++ "=== Creating branch fix/automation-framework-compatibility ===") ;;
  created <- run_git_command "git checkout -b fix/automation-framework-compatibility" ;;
  if created then
    print "Branch created successfully!"
  else
    (print "Failed to create branch. It might already exist." ;;
     run_git_command "git checkout fix/automation-framework-compatibility" ;;
     ret tt).

Definition commit_msg_1 : string :=
  "fix: update automation framework core.sh for bash compatibility" ++ nl ++
  nl ++
  "- Replace 'function' keyword with POSIX-compliant syntax" ++ nl ++
  "- Ensure compatibility with both bash and sh shells".

Definition commit_msg_2 : string :=
  "fix: replace associative arrays in auto script for POSIX compliance" ++ nl ++
  nl ++
  "- Convert bash-specific associative arrays to portable implementation" ++ nl ++
  "- Maintain functionality while ensuring shell compatibility".

Definition commit_msg_3 : string :=
  "feat: add missing .bash_profile.dir directory structure" ++ nl ++
  nl ++
  "- Create required directory for modular bash configuration" ++ nl ++
  "- Add .gitkeep to preserve empty directory in git".

Definition commit_msg_4 : string :=
  "feat: add --yes flag to initialize.sh for automated installation" ++ nl ++
  nl ++
  "- Support non-interactive installation with --yes flag" ++ nl ++
  "- Maintain backward compatibility with interactive mode".

Definition commit_msg_5 : string :=
  "feat: add yes-to-all support to automation tools module" ++ nl ++
  nl ++
  "- Pass through --yes flag from parent scripts" ++ nl ++
  "- Enable fully automated tool installation".

Definition commit_msg_6 : string :=
  "feat: enhance Makefile with new automation targets" ++ nl ++
  nl ++
  "- Add targets for automated installation and testing" ++ nl ++
  "- Improve development workflow with convenience commands".

Definition commit_msg_config : string :=
  "chore: update project configuration files" ++ nl ++
  nl ++
  "- Update CLAUDE.md documentation" ++ nl ++
  "- Add npm package configuration for development tools".

(** Lines 35-43. *)
Definition commit_1 : Py World unit :=
  present <- os.path.exists_ ".automation/framework/core.sh" ;;
  when present
    (print (nl ++ "=== Commit 1: Bash compatibility fix ===") ;;
     run_git_command "git add .automation/framework/core.sh" ;;
     run_git_command (git_commit commit_msg_1) ;;
     ret tt).

(** Lines 45-53. *)
Definition commit_2 : Py World unit :=
  present <- os.path.exists_ ".automation/auto" ;;
  when present
    (print (nl ++ "=== Commit 2: Fix associative array compatibility ===") ;;
     run_git_command "git add .automation/auto" ;;
     run_git_command (git_commit commit_msg_2) ;;
     ret tt).

(** Lines 55-66: the test is negated, the step runs when the directory is
    missing. *)
Definition commit_3 : Py World unit :=
  present <- os.path.exists_ ".bash_profile.dir" ;;
  when (negb present)
    (print (nl ++ "=== Commit 3: Create bash profile directory ===") ;;
     os.makedirs ".bash_profile.dir" true ;;
     write_file ".bash_profile.dir/.gitkeep" EmptyString ;;
     run_git_command "git add .bash_profile.dir/" ;;
     run_git_command (git_commit commit_msg_3) ;;
     ret tt).

(** Lines 68-76. *)
Definition commit_4 : Py World unit :=
  present <- os.path.exists_ "initialize.sh" ;;
  when present
    (print (nl ++ "=== Commit 4: Add yes-to-all functionality ===") ;;
     run_git_command "git add initialize.sh" ;;
     run_git_command (git_commit commit_msg_4) ;;
     ret tt).

(** Lines 78-86. *)
Definition commit_5 : Py World unit :=
  present <- os.path.exists_ ".automation/modules/tools.sh" ;;
  when present
    (print (nl ++ "=== Commit 5: Update tools module ===") ;;
     run_git_command "git add .automation/modules/tools.sh" ;;
     run_git_command (git_commit commit_msg_5) ;;
     ret tt).

(** Lines 88-96. *)
Definition commit_6 : Py World unit :=
  present <- os.path.exists_ "Makefile" ;;
  when present
    (print (nl ++ "=== Commit 6: Add new make targets ===") ;;
     run_git_command "git add Makefile" ;;
     run_git_command (git_commit commit_msg_6) ;;
     ret tt).

Definition config_files : list string :=
  ["CLAUDE.md"; "package.json"; "package-lock.json"].

(** Lines 98-111.  The [git diff] call goes to [subprocess.run] directly:
    no capture, and no [try] around it. *)
Definition commit_config : Py World unit :=
  print (nl ++ "=== Checking for additional project config files ===") ;;
  files_to_add <- existing config_files ;;
  match files_to_add with
  | [] => ret tt
  | _ :: _ =>
      run_git_command ("git add " ++ join " " files_to_add) ;;
      result <- subprocess.run "git diff --cached --quiet" false None ;;
      when (negb (returncode result =? 0)%Z)
        (run_git_command (git_commit commit_msg_config) ;;
         ret tt)
  end.

(** Lines 113-120. *)
Definition final_status : Py World unit :=
  print (nl ++ "=== Final git status ===") ;;
  run_git_command "git status" ;;
  run_git_command "git log --oneline -10" ;;
  print (nl ++ "=== Operation complete! ===") ;;
  print "Branch created and commits made successfully!" ;;
  print "You can now push with: git push -u origin fix/automation-framework-compatibility".

(** Everything below the definition of [run_git_command]. *)
Definition body : Py World unit :=
  check_status ;;
  create_branch ;;
  commit_1 ;;
  commit_2 ;;
  commit_3 ;;
  commit_4 ;;
  commit_5 ;;
  commit_6 ;;
  commit_config ;;
  final_status.

(** The whole script: line 6, then the rest. *)
Definition main : Py World unit :=
  os.chdir repo_path ;;
  body.

(** The six numbered commit steps, each with the path its test names. *)
Definition commit_steps : list (string * Py World unit) :=
  [(".automation/framework/core.sh", commit_1);
   (".automation/auto", commit_2);
   (".bash_profile.dir", commit_3);
   ("initialize.sh", commit_4);
   (".automation/modules/tools.sh", commit_5);
   ("Makefile", commit_6)].

(** Every path the script tests. *)
Definition gated_paths : list string :=
  (map fst commit_steps ++ config_files)%list.

End Script.
End git_operations.

(** ** [run_git_commands.py] *)

Module run_git_commands.
Section Script.
Context {World : Type} `{System World}.

Definition repo_path : string :=
  "/Users/mistergrinvalds/Repos/personal/bash-profile".

Definition execute_command (cmd : string) : Py World bool :=
  print (nl ++ ">>> Executing: " ++ cmd) ;;
  try_except
    (result <- subprocess.run cmd true (Some repo_path) ;;
     when (truthy (stdout result)) (print (stdout result)) ;;
     when (truthy (stderr result)) (print ("STDERR: " ++ stderr result)) ;;
     print ("Return code: " ++ str_of_int (returncode result)) ;;
     ret (returncode result =? 0)%Z)
    (fun e =>
       print ("Error executing command: " ++ e) ;;
       ret false).

(** Lines 24-41. *)
Definition body : Py World unit :=
  print "Starting git operations for bash-profile repository" ;;
  cwd <- os.getcwd ;;
  print ("Working directory: " ++ cwd) ;;
  execute_command "git status" ;;
  execute_command "git checkout -b fix/automation-framework-compatibility" ;;
  execute_command "git branch" ;;
  print (nl ++ "Git operations completed!") ;;
  print "Next steps:" ;;
  print "1. Add your files with: git add <files>" ;;
  print "2. Make commits with: git commit -m 'your message'" ;;
  print "3. Push with: git push -u origin fix/automation-framework-compatibility".

(** The whole script: line 8, then the rest. *)
Definition main : Py World unit :=
  os.chdir repo_path ;;
  body.

End Script.
End run_git_commands.

(** ** Reading a trace *)

(** The command strings handed to the shell, in order. *)
Fixpoint commands (t : list event) : list string :=
  match t with
  | [] => []
  | EvRun cmd _ _ :: t' => cmd :: commands t'
  | _ :: t' => commands t'
  end.

(** The arguments of [print], in order. *)
Fixpoint printed (t : list event) : list string :=
  match t with
  | [] => []
  | EvPrint s :: t' => s :: printed t'
  | _ :: t' => printed t'
  end.

(** The paths tested with [os.path.exists], in order. *)
Fixpoint checks (t : list event) : list string :=
  match t with
  | [] => []
  | EvExists p :: t' => p :: checks t'
  | _ :: t' => checks t'
  end.

(** The events by which the script itself (not a child process) creates or
    writes a path. *)
Fixpoint writes (t : list event) : list event :=
  match t with
  | [] => []
  | EvMakedirs p e :: t' => EvMakedirs p e :: writes t'
  | EvOpenWrite p d :: t' => EvOpenWrite p d :: writes t'
  | _ :: t' => writes t'
  end.

Definition is_git_commit (cmd : string) : bool := String.prefix "git commit" cmd.

(** The [git commit] invocations of a trace: each creates at most one commit,
    and nothing else the scripts run creates any. *)
Definition commit_commands (t : list event) : list string :=
  filter is_git_commit (commands t).

(** The two writing calls of step 3, in the order it makes them. *)
Definition profile_dir_writes : list event :=
  [EvMakedirs ".bash_profile.dir" true;
   EvOpenWrite ".bash_profile.dir/.gitkeep" EmptyString].

(** What [run_git_command] prints for a child process that completed. *)
Definition git_report (cmd : string) (cp : CompletedProcess) : list event :=
  ([EvPrint ("Command: " ++ cmd)] ++
   (if truthy (stdout cp) then [EvPrint ("Output: " ++ stdout cp)] else []) ++
   (if truthy (stderr cp) then [EvPrint ("Error: " ++ stderr cp)] else []) ++
   [EvPrint (str_mul "-" 50)])%list.

(** What [execute_command] prints after the child process completed. *)
Definition exec_report (cp : CompletedProcess) : list event :=
  ((if truthy (stdout cp) then [EvPrint (stdout cp)] else []) ++
   (if truthy (stderr cp) then [EvPrint ("STDERR: " ++ stderr cp)] else []) ++
   [EvPrint ("Return code: " ++ str_of_int (returncode cp))])%list.

(** ** Statements about runs *)

Section Statements.
Context {World : Type}.

(** From [w], [m] returns normally (no exception escapes it) and its trace,
    final state and value satisfy [Q]. *)
Definition returns {A} (m : Py World A) (w : World)
  (Q : list event -> World -> A -> Prop) : Prop :=
  exists t w' a, m w = (t, w', inl a) /\ Q t w' a.

(** Whatever the state and whether or not it returns, the writes of [m]
    satisfy [Q]. *)
Definition writes_only {A} (m : Py World A) (Q : list event -> Prop) : Prop :=
  forall w, Q (writes (trace_of (m w))).

Definition no_writes {A} (m : Py World A) : Prop :=
  writes_only m (fun ws => ws = []).

(** A trace that ends with a complete run of [k]. *)
Definition ends_with {B} (k : Py World B) (t : list event) (w' : World) : Prop :=
  exists t0 w1 t1 b, k w1 = (t1, w', inl b) /\ t = (t0 ++ t1)%list.

End Statements.

(** ** What a caller learns from a runner *)

(** The flag both runners compute from the outcome of [subprocess.run]. *)
Definition success (r : CompletedProcess + exn) : bool :=
  match r with
  | inl cp => (returncode cp =? 0)%Z
  | inr _ => false
  end.

Section Readings.
Context {World : Type} `{System World}.

(** Of the paths the script tests, only [initialize.sh] exists. *)
Definition only_initialize_sh (w : World) : Prop :=
  forall p, In p git_operations.gated_paths ->
            os_path_exists p w = String.eqb p "initialize.sh".

(** [w'] has the same tested paths as [w], but perhaps for
    [.bash_profile.dir]. *)
Definition keeps_tested_paths (w w' : World) : Prop :=
  forall p, In p git_operations.gated_paths -> p <> ".bash_profile.dir" ->
            os_path_exists p w' = os_path_exists p w.

End Readings.

(** ** A scripted machine

    A concrete [System] for running the scripts on: the machine state lists
    the paths that exist, says whether the repository directory is there,
    and holds the outcomes of the child processes still to come, one per
    [subprocess.run] call (a call beyond the list exits with status 0 and
    no output). *)

Module Scripted.

Record machine : Type := mkMachine {
  repo_present : bool;
  paths : list string;
  replies : list (CompletedProcess + exn)
}.

Definition exists_in (p : string) (l : list string) : bool :=
  existsb (String.eqb p) l.

Definition add_path (p : string) (m : machine) : machine :=
  if exists_in p (paths m) then m
  else mkMachine (repo_present m) (p :: paths m) (replies m).

Definition chdir (p : string) (m : machine) : machine * (unit + exn) :=
  if repo_present m then (m, inl tt)
  else (m, inr ("[Errno 2] No such file or directory: '" ++ p ++ "'")).

Definition run (m : machine) : machine * (CompletedProcess + exn) :=
  match replies m with
  | [] => (m, inl (mkCompleted 0 EmptyString EmptyString))
  | r :: rs => (mkMachine (repo_present m) (paths m) rs, r)
  end.

#[global] Instance system : System machine := {
  os_chdir := chdir;
  os_getcwd := fun _ => "/Users/mistergrinvalds/Repos/personal/bash-profile";
  os_path_exists := fun p m => exists_in p (paths m);
  os_makedirs := fun p _ m => (add_path p m, inl tt);
  open_write := fun p _ m => (add_path p m, inl tt);
  subprocess_run := fun _ _ _ m => run m
}.

(** Child-process outcomes used below. *)
Definition exited (code : Z) : CompletedProcess + exn :=
  inl (mkCompleted code EmptyString EmptyString).
Definition branch_exists : CompletedProcess + exn :=
  inl (mkCompleted 128 EmptyString
         "fatal: a branch named 'fix/automation-framework-compatibility' already exists").
Definition no_shell : CompletedProcess + exn :=
  inr "[Errno 2] No such file or directory: '/bin/sh'".

(** A repository holding only [initialize.sh], every command succeeding. *)
Definition only_initialize : machine := mkMachine true ["initialize.sh"] [].

(** The same with [.bash_profile.dir] in place. *)
Definition with_profile_dir : machine :=
  mkMachine true [".bash_profile.dir"; "initialize.sh"] [].

(** No repository directory at all. *)
Definition no_repo : machine := mkMachine false [] [].

(** A repository holding only [.bash_profile.dir] in which the branch is
    already there: the second command ([git checkout -b]) fails. *)
Definition branch_taken : machine :=
  mkMachine true [".bash_profile.dir"] [exited 0; branch_exists].


(** A repository with [CLAUDE.md] and [.bash_profile.dir] in which the
    fourth child process, the direct [git diff] call, cannot be started. *)
Definition diff_cannot_start : machine :=
  mkMachine true [".bash_profile.dir"; "CLAUDE.md"]
    [exited 0; exited 0; exited 0; no_shell].

End Scripted.

(** ** The commands of a run *)

(** The order-preserving sublists of a list. *)
Fixpoint sublists {A} (l : list A) : list (list A) :=
  match l with
  | [] => [[]]
  | x :: xs => (map (cons x) (sublists xs) ++ sublists xs)%list
  end.

(** Every command string [git_operations.py] can hand to the shell: the
    five fixed ones, the [git add] of each step, the [git add] of any
    non-empty selection of the config files, and the seven commits. *)
Definition known_commands : list string :=
  (["git status";
    "git checkout -b fix/automation-framework-compatibility";
    "git checkout fix/automation-framework-compatibility";
    "git log --oneline -10";
    "git diff --cached --quiet";
    "git add .automation/framework/core.sh";
    "git add .automation/auto";
    "git add .bash_profile.dir/";
    "git add initialize.sh";
    "git add .automation/modules/tools.sh";
    "git add Makefile"] ++
   map (fun fs => "git add " ++ join " " fs)%string
     (filter (fun fs => negb (Nat.eqb (length fs) 0))
        (sublists git_operations.config_files)) ++
   map git_operations.git_commit
     [git_operations.commit_msg_1; git_operations.commit_msg_2;
      git_operations.commit_msg_3; git_operations.commit_msg_4;
      git_operations.commit_msg_5; git_operations.commit_msg_6;
      git_operations.commit_msg_config])%list.

Definition known_command (cmd : string) : bool :=
  existsb (String.eqb cmd) known_commands.

(** A list of commands that are all known and hold at most [n] commits. *)
Definition within_budget (n : nat) (cs : list string) : Prop :=
  forallb known_command cs = true /\ length (filter is_git_commit cs) <= n.

Section Budget.
Context {World : Type}.

(** In every run of [m], returning or not, the commands issued are within
    the budget [n]. *)
Definition spends {A} (m : Py World A) (n : nat) : Prop :=
  forall w, within_budget n (commands (trace_of (m w))).

End Budget.

(** The commands of the config step: nothing without config files;
    otherwise one [git add] of those present, the [git diff], and the commit
    when the diff reported staged changes. *)
Definition config_commands (files : list string) (changed : bool) : list string :=
  match files with
  | [] => []
  | _ :: _ =>
      ("git add " ++ join " " files)%string
        :: "git diff --cached --quiet"
        :: (if changed
            then [git_operations.git_commit git_operations.commit_msg_config]
            else [])
  end.

Section Frames.
Context {World : Type} `{System World}.

(** [w'] has the same tested paths as [w], [.bash_profile.dir] included. *)
Definition same_tested_paths (w w' : World) : Prop :=
  forall p, In p git_operations.gated_paths ->
            os_path_exists p w' = os_path_exists p w.

End Frames.

(** Further scripted machines. *)
Module Fixtures.

(** Everything the script tests is there but [.bash_profile.dir]; the
    branch exists already and the diff reports staged changes. *)
Definition full_repository : Scripted.machine :=
  Scripted.mkMachine true
    [".automation/framework/core.sh"; ".automation/auto"; "initialize.sh";
     ".automation/modules/tools.sh"; "Makefile"; "CLAUDE.md"; "package.json";
     "package-lock.json"]
    ([Scripted.exited 0; Scripted.branch_exists] ++
     repeat (Scripted.exited 0) 14 ++ [Scripted.exited 1])%list.


(** Two config files, and a diff that finds nothing staged. *)
Definition nothing_staged : Scripted.machine :=
  Scripted.mkMachine true ["CLAUDE.md"; "package-lock.json"]
    [Scripted.exited 0; Scripted.exited 0].

(** One config file, and a diff that cannot be started. *)
Definition diff_fails : Scripted.machine :=
  Scripted.mkMachine true ["package.json"] [Scripted.exited 0; Scripted.no_shell].

(** Only [initialize.sh] is there, and so is the branch: [git checkout -b]
    fails, the [git add] of step 3 fails and its [git commit] cannot be
    started. *)
Definition branch_there : Scripted.machine :=
  Scripted.mkMachine true ["initialize.sh"]
    [Scripted.exited 0; Scripted.branch_exists; Scripted.exited 0;
     Scripted.exited 1; Scripted.no_shell].

(** Only [CLAUDE.md] is there, and of the ten commands of the run all fail
    or cannot be started; the direct [git diff], the seventh, exits with
    status 1. *)
Definition rough_run : Scripted.machine :=
  Scripted.mkMachine true ["CLAUDE.md"]
    [Scripted.no_shell; Scripted.branch_exists; Scripted.no_shell;
     Scripted.exited 1; Scripted.no_shell; Scripted.exited 128;
     Scripted.exited 1; Scripted.no_shell; Scripted.exited 128;
     Scripted.no_shell].

(** Only [.bash_profile.dir] is there, and no command can be started. *)
Definition shell_missing : Scripted.machine :=
  Scripted.mkMachine true [".bash_profile.dir"] (repeat Scripted.no_shell 10).

End Fixtures.

(** A scripted machine on a file system that may refuse to create
    directories or to write files. *)
Module Guarded.

Record machine : Type := mkMachine {
  base : Scripted.machine;
  may_mkdir : bool;
  may_write : bool
}.

Definition lift {A} (f : Scripted.machine -> Scripted.machine * A)
  (m : machine) : machine * A :=
  let (b, r) := f (base m) in (mkMachine b (may_mkdir m) (may_write m), r).

Definition denied (p : string) : exn :=
  "[Errno 13] Permission denied: '" ++ p ++ "'".

#[global] Instance system : System machine := {
  os_chdir := fun p => lift (os_chdir p);
  os_getcwd := fun m => os_getcwd (base m);
  os_path_exists := fun p m => os_path_exists p (base m);
  os_makedirs := fun p e m =>
    if may_mkdir m then lift (os_makedirs p e) m else (m, inr (denied p));
  open_write := fun p d m =>
    if may_write m then lift (open_write p d) m else (m, inr (denied p));
  subprocess_run := fun cmd capture cwd => lift (subprocess_run cmd capture cwd)
}.

(** An empty repository in which no directory can be created. *)
Definition no_mkdir : machine :=
  mkMachine (Scripted.mkMachine true [] []) false true.

(** An empty repository in which no file can be written. *)
Definition no_write : machine :=
  mkMachine (Scripted.mkMachine true [] []) true false.

End Guarded.

(** The three lines that close [git_operations.py]. *)
Definition closing_lines : list string :=
  [nl ++ "=== Operation complete! ===";
   "Branch created and commits made successfully!";
   "You can now push with: git push -u origin fix/automation-framework-compatibility"].

(** ** [git_operations.py], cut before a step

    The state a step starts in is the state in which the lines before it
    end.  These are the lines from the status check on (the script without
    its [os.chdir]), up to a step. *)

Section Prefixes.
Context {World : Type} `{System World}.

(** Lines 23-33: up to step 1. *)
Definition before_commit_1 : Py World unit :=
  git_operations.check_status ;;
  git_operations.create_branch.

(** Lines 23-53: up to step 3. *)
Definition before_commit_3 : Py World unit :=
  before_commit_1 ;;
  git_operations.commit_1 ;;
  git_operations.commit_2.

(** Lines 23-66: up to step 4. *)
Definition before_commit_4 : Py World unit :=
  before_commit_3 ;;
  git_operations.commit_3.

(** Lines 23-76: up to step 5. *)
Definition before_commit_5 : Py World unit :=
  before_commit_4 ;;
  git_operations.commit_4.

(** Lines 23-96: up to the config step. *)
Definition before_commit_config : Py World unit :=
  before_commit_5 ;;
  git_operations.commit_5 ;;
  git_operations.commit_6.

(** In state [u], step 3 has nothing to create, or its two writing calls
    return. *)
Definition profile_dir_writable (u : World) : Prop :=
  os_path_exists ".bash_profile.dir" u = false ->
  exists u1 u2,
    os_makedirs ".bash_profile.dir" true u = (u1, inl tt) /\
    open_write ".bash_profile.dir/.gitkeep" EmptyString u1 = (u2, inl tt).

(** The direct [git diff] call of the config step returns, if the step,
    started in state [u], gets to make it: it is made after the [git add]
    of the config files present. *)
Definition diff_returns (u : World) : Prop :=
  forall f fs,
    filter (fun g => os_path_exists g u) git_operations.config_files = f :: fs ->
    exists u' cp,
      subprocess_run "git diff --cached --quiet" false None
        (fst (subprocess_run ("git add " ++ join " " (f :: fs)) true None u)) =
        (u', inl cp).

(** Whether [git checkout -b], run after the [git status] of line 24 from
    state [w], creates the branch. *)
Definition branch_created (w : World) : bool :=
  success
    (snd (subprocess_run
            "git checkout -b fix/automation-framework-compatibility" true None
            (fst (subprocess_run "git status" true None w)))).

End Prefixes.

(** ** The two runners once more, with prints that can raise

    Above, [print] always succeeds and an exception is only its text: that
    is the script seen on a console that takes every line and on a machine
    that is never interrupted.  What a runner returns and prints depends on
    more than that.  Its prints are inside its [try], so a print that
    raises ([UnicodeEncodeError] on output the console cannot encode,
    [BrokenPipeError] on a closed one) is caught like a failure of the
    command; and its handler is [except Exception], which lets an exception
    that is not an [Exception] ([KeyboardInterrupt], [SystemExit]) through.
    The runners are therefore embedded a second time, over a host whose
    prints can raise and whose exceptions are of the two kinds. *)

Module Precise.

(** A raised exception: its text, and whether [except Exception] catches
    it. *)
Inductive raised : Type :=
| Exception (text : string)
| BaseException (text : string).

(** [host_run] stands for [subprocess.run] as [subprocess_run] does;
    [host_print s w] is [None] when [print(s)] writes the line and the
    exception it raises otherwise. *)
Class Host (World : Type) : Type := {
  host_run :
    string -> bool -> option string -> World -> World * (CompletedProcess + raised);
  host_print : string -> World -> option raised
}.

Definition Py (World A : Type) : Type :=
  World -> list event * World * (A + raised).

Definition ret {World A} (a : A) : Py World A :=
  fun w => ([], w, inl a).

Definition bind {World A B} (m : Py World A) (f : A -> Py World B)
  : Py World B :=
  fun w =>
    match m w with
    | (t1, w1, inl a) =>
        match f a w1 with
        | (t2, w2, r) => ((t1 ++ t2)%list, w2, r)
        end
    | (t1, w1, inr e) => (t1, w1, inr e)
    end.

(** [try: body  except Exception as e: handler(e)]: only an [Exception]
    reaches the handler, which uses its text. *)
Definition try_except {World A} (body : Py World A)
  (handler : string -> Py World A) : Py World A :=
  fun w =>
    match body w with
    | (t1, w1, inl a) => (t1, w1, inl a)
    | (t1, w1, inr (Exception e)) =>
        match handler e w1 with
        | (t2, w2, r) => ((t1 ++ t2)%list, w2, r)
        end
    | (t1, w1, inr (BaseException e)) => (t1, w1, inr (BaseException e))
    end.

(** The three components of a run. *)
Definition trace_of {World A} (r : list event * World * (A + raised))
  : list event := fst (fst r).
Definition world_of {World A} (r : list event * World * (A + raised))
  : World := snd (fst r).
Definition value_of {World A} (r : list event * World * (A + raised))
  : A + raised := snd r.

Declare Scope precise_scope.
Delimit Scope precise_scope with precise.
Notation "x <- m ;; k" := (bind m (fun x => k))
  (at level 100, m at next level, right associativity) : precise_scope.
Notation "m ;; k" := (bind m (fun _ => k))
  (at level 100, right associativity) : precise_scope.

Definition when {World} (b : bool) (m : Py World unit) : Py World unit :=
  if b then m else ret tt.

Section Calls.
Context {World : Type} `{Host World}.

(** A line that could not be written leaves no event. *)
Definition print (text : string) : Py World unit :=
  fun w =>
    match host_print text w with
    | None => ([EvPrint text], w, inl tt)
    | Some x => ([], w, inr x)
    end.

End Calls.

Module subprocess.
Section Calls.
Context {World : Type} `{Host World}.

Definition run (cmd : string) (capture_output : bool) (cwd : option string)
  : Py World CompletedProcess :=
  fun w => let (w', r) := host_run cmd capture_output cwd w in
           ([EvRun cmd capture_output cwd], w', r).

End Calls.
End subprocess.

Module git_operations.
Section Script.
Context {World : Type} `{Host World}.
Local Open Scope precise_scope.

Definition run_git_command (cmd : string) : Py World bool :=
  try_except
    (result <- subprocess.run cmd true None ;;
     print ("Command: " ++ cmd) ;;
     when (truthy (stdout result)) (print ("Output: " ++ stdout result)) ;;
     when (truthy (stderr result)) (print ("Error: " ++ stderr result)) ;;
     print (str_mul "-" 50) ;;
     ret (returncode result =? 0)%Z)
    (fun e =>
       print ("Exception running '" ++ cmd ++ "': " ++ e) ;;
       ret false).

End Script.
End git_operations.

Module run_git_commands.
Section Script.
Context {World : Type} `{Host World}.
Local Open Scope precise_scope.

Definition repo_path : string :=
  "/Users/mistergrinvalds/Repos/personal/bash-profile".

Definition execute_command (cmd : string) : Py World bool :=
  print (nl ++ ">>> Executing: " ++ cmd) ;;
  try_except
    (result <- subprocess.run cmd true (Some repo_path) ;;
     when (truthy (stdout result)) (print (stdout result)) ;;
     when (truthy (stderr result)) (print ("STDERR: " ++ stderr result)) ;;
     print ("Return code: " ++ str_of_int (returncode result)) ;;
     ret (returncode result =? 0)%Z)
    (fun e =>
       print ("Error executing command: " ++ e) ;;
       ret false).

End Script.
End run_git_commands.

(** *** Reading a runner's result *)

(** The lines [run_git_command] prints in its [try] for a child process
    that completed, and those of [execute_command]. *)
Definition git_lines (cmd : string) (cp : CompletedProcess) : list string :=
  ([("Command: " ++ cmd)%string] ++
   (if truthy (stdout cp) then [("Output: " ++ stdout cp)%string] else []) ++
   (if truthy (stderr cp) then [("Error: " ++ stderr cp)%string] else []) ++
   [str_mul "-" 50])%list.

Definition exec_lines (cp : CompletedProcess) : list string :=
  ((if truthy (stdout cp) then [stdout cp] else []) ++
   (if truthy (stderr cp) then [("STDERR: " ++ stderr cp)%string] else []) ++
   [("Return code: " ++ str_of_int (returncode cp))%string])%list.

(** The line [execute_command] prints before its [try]. *)
Definition exec_heading (cmd : string) : string :=
  nl ++ ">>> Executing: " ++ cmd.

(** The line each handler prints. *)
Definition git_failure_line (cmd e : string) : string :=
  "Exception running '" ++ cmd ++ "': " ++ e.

Definition exec_failure_line (e : string) : string :=
  "Error executing command: " ++ e.

Section Readings.
Context {World : Type} `{Host World}.

(** Printing [lines] one after the other in state [u]: the lines written,
    and the exception that stopped the printing, if any. *)
Fixpoint attempt (lines : list string) (u : World)
  : list string * option raised :=
  match lines with
  | [] => ([], None)
  | l :: ls =>
      match host_print l u with
      | None => let (ws, x) := attempt ls u in (l :: ws, x)
      | Some x => ([], Some x)
      end
  end.

(** Every one of [lines] is written in state [u]. *)
Definition accepted (lines : list string) (u : World) : Prop :=
  forall l, In l lines -> host_print l u = None.

(** A handler at work: it prints its [line] and returns [False], or
    raises what its print raised. *)
Definition handled (line : string) (u : World)
  : list event * World * (bool + raised) :=
  match host_print line u with
  | None => ([EvPrint line], u, inl false)
  | Some x => ([], u, inr x)
  end.

(** What follows [subprocess.run] in a runner, whose outcome was [r] and
    which left state [u]: [lines cp] are the lines of the [try],
    [failure e] is the line of the handler. *)
Definition settle (lines : CompletedProcess -> list string)
  (failure : string -> string) (u : World) (r : CompletedProcess + raised)
  : list event * World * (bool + raised) :=
  match r with
  | inl cp =>
      match attempt (lines cp) u with
      | (ws, None) => (map EvPrint ws, u, inl (returncode cp =? 0)%Z)
      | (ws, Some (Exception e)) =>
          match handled (failure e) u with
          | (t, u', v) => ((map EvPrint ws ++ t)%list, u', v)
          end
      | (ws, Some (BaseException e)) =>
          (map EvPrint ws, u, inr (BaseException e))
      end
  | inr (Exception e) => handled (failure e) u
  | inr (BaseException e) => ([], u, inr (BaseException e))
  end.

(** The value a runner returns carries the exit status of the child
    process: some reading [exit_code] of the returned value gives, for
    every child process that completed, its [returncode]. *)
Definition returns_exit_code (runner : string -> Py World bool)
  (cwd : option string) : Prop :=
  exists exit_code : bool -> Z,
    forall cmd w cp,
      snd (host_run cmd true cwd w) = inl cp ->
      exists b, value_of (runner cmd w) = inl b /\ exit_code b = returncode cp.


End Readings.

(** *** Hosts to run on *)

(** The console of a scripted host: it takes any text, or only 7-bit
    text, or it is closed. *)
Inductive console : Type := AnyText | AsciiOnly | Closed.

Record machine : Type := mkMachine {
  screen : console;
  replies : list (CompletedProcess + raised)
}.

Fixpoint is_ascii (s : string) : bool :=
  match s with
  | EmptyString => true
  | String c rest => (nat_of_ascii c <? 128)%nat && is_ascii rest
  end.

Definition refuses (c : console) (s : string) : option raised :=
  match c with
  | AnyText => None
  | AsciiOnly =>
      if is_ascii s then None
      else Some (Exception "'ascii' codec can't encode characters")
  | Closed => Some (Exception "[Errno 32] Broken pipe")
  end.

Definition pop (m : machine) : machine * (CompletedProcess + raised) :=
  match replies m with
  | [] => (m, inl (mkCompleted 0 EmptyString EmptyString))
  | r :: rs => (mkMachine (screen m) rs, r)
  end.

#[global] Instance host : Host machine := {
  host_run := fun _ _ _ m => pop m;
  host_print := fun s m => refuses (screen m) s
}.

(** A child process that exits with [code] and prints [out]. *)
Definition exits (code : Z) (out : string) : CompletedProcess + raised :=
  inl (mkCompleted code out EmptyString).

(** A line no 7-bit console can take. *)
Definition accented : string := String (ascii_of_nat 233) EmptyString.

Definition interrupt : CompletedProcess + raised :=
  inr (BaseException "KeyboardInterrupt").

Definition no_shell : CompletedProcess + raised :=
  inr (Exception "[Errno 2] No such file or directory: '/bin/sh'").

(** The host a [System] is when its console takes every line and nothing
    interrupts it. *)
Definition of_system {World : Type} `{System World} : Host World := {|
  host_run := fun cmd capture cwd w =>
    let (w', r) := subprocess_run cmd capture cwd w in
    (w', match r with
         | inl cp => inl cp
         | inr e => inr (Exception e)
         end);
  host_print := fun _ _ => None
|}.

(** An outcome of the coarse embedding, read as one of this one. *)
Definition lift {World A} (r : list event * World * (A + exn))
  : list event * World * (A + raised) :=
  match r with
  | (t, w, inl a) => (t, w, inl a)
  | (t, w, inr e) => (t, w, inr (Exception e))
  end.

End Precise.

(** * Properties *)

(** ** Traces and sequencing *)

Lemma commands_app (t u : list event) :
  commands (t ++ u) = (commands t ++ commands u)%list.
Proof.
  induction t as [|e t IH]; [reflexivity|].
  destruct e; simpl; rewrite IH; reflexivity.
Qed.

Lemma printed_app (t u : list event) :
  printed (t ++ u) = (printed t ++ printed u)%list.
Proof.
  induction t as [|e t IH]; [reflexivity|].
  destruct e; simpl; rewrite IH; reflexivity.
Qed.

Lemma checks_app (t u : list event) :
  checks (t ++ u) = (checks t ++ checks u)%list.
Proof.
  induction t as [|e t IH]; [reflexivity|].
  destruct e; simpl; rewrite IH; reflexivity.
Qed.

Lemma writes_app (t u : list event) :
  writes (t ++ u) = (writes t ++ writes u)%list.
Proof.
  induction t as [|e t IH]; [reflexivity|].
  destruct e; simpl; rewrite IH; reflexivity.
Qed.

(** The reports of the two runners are prints only. *)
Lemma git_report_silent (cmd : string) (cp : CompletedProcess) :
  commands (git_report cmd cp) = [] /\
  writes (git_report cmd cp) = [] /\
  checks (git_report cmd cp) = [].
Proof.
  unfold git_report.
  destruct (truthy (stdout cp)), (truthy (stderr cp)); repeat split.
Qed.

Lemma exec_report_silent (cp : CompletedProcess) :
  commands (exec_report cp) = [] /\
  writes (exec_report cp) = [] /\
  checks (exec_report cp) = [].
Proof.
  unfold exec_report.
  destruct (truthy (stdout cp)), (truthy (stderr cp)); repeat split.
Qed.

Section Sequencing.
Context {World : Type}.

Lemma bind_returned {A B} (m : Py World A) (f : A -> Py World B) w t1 w1 a :
  m w = (t1, w1, inl a) ->
  bind m f w =
    ((t1 ++ trace_of (f a w1))%list, world_of (f a w1), value_of (f a w1)).
Proof.
  intros Hm. unfold bind, trace_of, world_of, value_of. rewrite Hm.
  destruct (f a w1) as [[t2 w2] r]. reflexivity.
Qed.

Lemma bind_raised {A B} (m : Py World A) (f : A -> Py World B) w t1 w1 e :
  m w = (t1, w1, inr e) ->
  bind m f w = (t1, w1, inr e).
Proof. intros Hm. unfold bind. rewrite Hm. reflexivity. Qed.

Lemma trace_of_bind {A B} (m : Py World A) (f : A -> Py World B) w :
  trace_of (bind m f w) =
    (trace_of (m w) ++
     match value_of (m w) with
     | inl a => trace_of (f a (world_of (m w)))
     | inr _ => []
     end)%list.
Proof.
  unfold bind, trace_of, world_of, value_of.
  destruct (m w) as [[t1 w1] [a|e]]; simpl.
  - destruct (f a w1) as [[t2 w2] r]. reflexivity.
  - rewrite app_nil_r. reflexivity.
Qed.

End Sequencing.

(** ** The two command runners *)

Section Runners.
Context {World : Type} `{System World}.

Lemma run_git_command_completed cmd w w' cp :
  subprocess_run cmd true None w = (w', inl cp) ->
  git_operations.run_git_command cmd w =
    (EvRun cmd true None :: git_report cmd cp, w', inl (returncode cp =? 0)%Z).
Proof.
  intros Hrun.
  unfold git_operations.run_git_command, try_except, bind, subprocess.run,
    when, print, ret, git_report.
  rewrite Hrun.
  destruct (truthy (stdout cp)), (truthy (stderr cp)); reflexivity.
Qed.

Lemma run_git_command_raised cmd w w' e :
  subprocess_run cmd true None w = (w', inr e) ->
  git_operations.run_git_command cmd w =
    ([EvRun cmd true None;
      EvPrint ("Exception running '" ++ cmd ++ "': " ++ e)], w', inl false).
Proof.
  intros Hrun.
  unfold git_operations.run_git_command, try_except, bind, subprocess.run,
    print, ret.
  rewrite Hrun. reflexivity.
Qed.

Lemma execute_command_completed cmd w w' cp :
  subprocess_run cmd true (Some run_git_commands.repo_path) w = (w', inl cp) ->
  run_git_commands.execute_command cmd w =
    (EvPrint (nl ++ ">>> Executing: " ++ cmd)
       :: EvRun cmd true (Some run_git_commands.repo_path)
       :: exec_report cp,
     w', inl (returncode cp =? 0)%Z).
Proof.
  intros Hrun.
  unfold run_git_commands.execute_command, try_except, bind, subprocess.run,
    when, print, ret, exec_report.
  rewrite Hrun.
  destruct (truthy (stdout cp)), (truthy (stderr cp)); reflexivity.
Qed.

Lemma execute_command_raised cmd w w' e :
  subprocess_run cmd true (Some run_git_commands.repo_path) w = (w', inr e) ->
  run_git_commands.execute_command cmd w =
    ([EvPrint (nl ++ ">>> Executing: " ++ cmd);
      EvRun cmd true (Some run_git_commands.repo_path);
      EvPrint ("Error executing command: " ++ e)], w', inl false).
Proof.
  intros Hrun.
  unfold run_git_commands.execute_command, try_except, bind, subprocess.run,
    print, ret.
  rewrite Hrun. reflexivity.
Qed.

End Runners.

(** ** Rules for [returns] *)

Section Rules.
Context {World : Type} `{System World}.

Lemma returns_ret {A} (a : A) (w : World) Q :
  Q [] w a -> returns (ret a) w Q.
Proof. intros HQ. exists [], w, a. split; [reflexivity|exact HQ]. Qed.

Lemma returns_bind {A B} (m : Py World A) (f : A -> Py World B) w Q :
  returns m w
    (fun t1 w1 a => returns (f a) w1 (fun t2 w2 b => Q (t1 ++ t2)%list w2 b)) ->
  returns (bind m f) w Q.
Proof.
  intros (t1 & w1 & a & Hm & t2 & w2 & b & Hf & HQ).
  exists (t1 ++ t2)%list, w2, b. split; [|exact HQ].
  erewrite bind_returned by exact Hm. rewrite Hf. reflexivity.
Qed.

Lemma returns_mono {A} (m : Py World A) w (Q Q' : list event -> World -> A -> Prop) :
  returns m w Q ->
  (forall t w' a, Q t w' a -> Q' t w' a) ->
  returns m w Q'.
Proof.
  intros (t & w' & a & Hm & HQ) Himp.
  exists t, w', a. split; [exact Hm|apply Himp, HQ].
Qed.

(** A run that returns describes itself. *)
Lemma returns_self {A} (m : Py World A) w Q :
  returns m w Q ->
  returns m w (fun t w' a => m w = (t, w', inl a) /\ Q t w' a).
Proof.
  intros (t & w' & a & Hm & HQ). exists t, w', a. auto.
Qed.

Lemma returns_print (s : string) (w : World) Q :
  Q [EvPrint s] w tt -> returns (print s) w Q.
Proof. intros HQ. exists [EvPrint s], w, tt. split; [reflexivity|exact HQ]. Qed.

Lemma returns_when (b : bool) (m : Py World unit) w Q :
  (b = true -> returns m w Q) ->
  (b = false -> Q [] w tt) ->
  returns (when b m) w Q.
Proof.
  destruct b; simpl; intros Ht Hf; [apply Ht|apply returns_ret, Hf]; reflexivity.
Qed.

Lemma returns_exists (p : string) (w : World) Q :
  Q [EvExists p] w (os_path_exists p w) -> returns (os.path.exists_ p) w Q.
Proof.
  intros HQ. exists [EvExists p], w, (os_path_exists p w).
  split; [reflexivity|exact HQ].
Qed.

Lemma returns_getcwd (w : World) Q :
  Q [EvGetcwd] w (os_getcwd w) -> returns os.getcwd w Q.
Proof.
  intros HQ. exists [EvGetcwd], w, (os_getcwd w).
  split; [reflexivity|exact HQ].
Qed.

Lemma returns_chdir (p : string) (w w' : World) Q :
  os_chdir p w = (w', inl tt) ->
  Q [EvChdir p] w' tt -> returns (os.chdir p) w Q.
Proof.
  intros Hcd HQ. exists [EvChdir p], w', tt. split; [|exact HQ].
  unfold os.chdir. rewrite Hcd. reflexivity.
Qed.

Lemma returns_makedirs (p : string) (e : bool) (w w' : World) Q :
  os_makedirs p e w = (w', inl tt) ->
  Q [EvMakedirs p e] w' tt -> returns (os.makedirs p e) w Q.
Proof.
  intros Hmk HQ. exists [EvMakedirs p e], w', tt. split; [|exact HQ].
  unfold os.makedirs. rewrite Hmk. reflexivity.
Qed.

Lemma returns_write_file (p d : string) (w w' : World) Q :
  open_write p d w = (w', inl tt) ->
  Q [EvOpenWrite p d] w' tt -> returns (write_file p d) w Q.
Proof.
  intros Hwr HQ. exists [EvOpenWrite p d], w', tt. split; [|exact HQ].
  unfold write_file. rewrite Hwr. reflexivity.
Qed.

Lemma returns_run (cmd : string) (w w' : World) cp Q :
  subprocess_run cmd false None w = (w', inl cp) ->
  Q [EvRun cmd false None] w' cp -> returns (subprocess.run cmd false None) w Q.
Proof.
  intros Hrun HQ. exists [EvRun cmd false None], w', cp. split; [|exact HQ].
  unfold subprocess.run. rewrite Hrun. reflexivity.
Qed.

(** [run_git_command] always returns; its trace holds the one command and
    prints, and the state is the one the child process left. *)
Lemma returns_run_git_command (cmd : string) (w : World) Q :
  (forall t,
      commands t = [cmd] -> writes t = [] -> checks t = [] ->
      Q t (fst (subprocess_run cmd true None w))
        (success (snd (subprocess_run cmd true None w)))) ->
  returns (git_operations.run_git_command cmd) w Q.
Proof.
  intros HQ.
  destruct (subprocess_run cmd true None w) as [w' [cp|e]] eqn:Hrun.
  - eexists _, w', _. split; [apply run_git_command_completed, Hrun|].
    destruct (git_report_silent cmd cp) as (Hc & Hw & Hk).
    apply HQ; simpl; f_equal; assumption.
  - eexists _, w', _. split; [apply run_git_command_raised, Hrun|].
    apply HQ; reflexivity.
Qed.

Lemma returns_execute_command (cmd : string) (w : World) Q :
  (forall t,
      commands t = [cmd] -> writes t = [] -> checks t = [] ->
      Q t (fst (subprocess_run cmd true (Some run_git_commands.repo_path) w))
        (success (snd (subprocess_run cmd true
                         (Some run_git_commands.repo_path) w)))) ->
  returns (run_git_commands.execute_command cmd) w Q.
Proof.
  intros HQ.
  destruct (subprocess_run cmd true (Some run_git_commands.repo_path) w)
    as [w' [cp|e]] eqn:Hrun.
  - eexists _, w', _. split; [apply execute_command_completed, Hrun|].
    destruct (exec_report_silent cp) as (Hc & Hw & Hk).
    apply HQ; simpl; f_equal; assumption.
  - eexists _, w', _. split; [apply execute_command_raised, Hrun|].
    apply HQ; reflexivity.
Qed.

End Rules.

(** ** The commit steps of [git_operations.py] *)

Section Steps.
Context {World : Type} `{System World}.

(** A step guarded by [if os.path.exists(p):] does nothing but the test
    when [p] is missing. *)
Lemma guarded_step_skipped (p : string) (step : Py World unit) (w : World) :
  os_path_exists p w = false ->
  (present <- os.path.exists_ p ;; when present step) w =
    ([EvExists p], w, inl tt).
Proof.
  intros Hp. unfold bind, os.path.exists_, when, ret. rewrite Hp. reflexivity.
Qed.

Lemma commit_3_skipped (w : World) :
  os_path_exists ".bash_profile.dir" w = true ->
  git_operations.commit_3 w = ([EvExists ".bash_profile.dir"], w, inl tt).
Proof.
  intros Hp. unfold git_operations.commit_3, bind, os.path.exists_, when, ret.
  rewrite Hp. reflexivity.
Qed.

(** With [.bash_profile.dir] missing, step 3 goes on to create it. *)
Lemma commit_3_entered (w : World) :
  os_path_exists ".bash_profile.dir" w = false ->
  exists t,
    trace_of (git_operations.commit_3 w) =
      EvExists ".bash_profile.dir"
        :: EvPrint (nl ++ "=== Commit 3: Create bash profile directory ===")
        :: EvMakedirs ".bash_profile.dir" true :: t.
Proof.
  intros Hp. unfold git_operations.commit_3.
  rewrite trace_of_bind. cbn [os.path.exists_ trace_of value_of world_of fst snd].
  rewrite Hp. cbn [negb when].
  rewrite trace_of_bind. cbn [print trace_of value_of world_of fst snd].
  rewrite trace_of_bind. unfold os.makedirs at 1.
  destruct (os_makedirs ".bash_profile.dir" true w) as [w1 r].
  cbn [trace_of fst app]. eexists. reflexivity.
Qed.

(** The config step with none of its three files present. *)
Lemma commit_config_skipped (w : World) :
  (forall f, In f git_operations.config_files -> os_path_exists f w = false) ->
  git_operations.commit_config w =
    ([EvPrint (nl ++ "=== Checking for additional project config files ===");
      EvExists "CLAUDE.md"; EvExists "package.json";
      EvExists "package-lock.json"], w, inl tt).
Proof.
  intros Hnone.
  unfold git_operations.commit_config, git_operations.config_files, existing,
    bind, os.path.exists_, print, ret.
  rewrite !Hnone by (simpl; auto). reflexivity.
Qed.

(** C2, as amended.  Steps 1, 2, 4, 5 and 6 test their path and, when it is
    missing, issue no command at all and hand the unchanged state to the
    next step.  Step 3 is guarded the other way round: it is skipped when
    [.bash_profile.dir] exists and entered when it is missing.  The config
    step issues nothing when none of its three files exists. *)
Theorem missing_path_skips_step (w : World) :
  (forall p step,
      In (p, step) git_operations.commit_steps ->
      p <> ".bash_profile.dir" ->
      os_path_exists p w = false ->
      step w = ([EvExists p], w, inl tt)) /\
  (os_path_exists ".bash_profile.dir" w = true ->
   git_operations.commit_3 w = ([EvExists ".bash_profile.dir"], w, inl tt)) /\
  (os_path_exists ".bash_profile.dir" w = false ->
   exists t,
     trace_of (git_operations.commit_3 w) =
       EvExists ".bash_profile.dir"
         :: EvPrint (nl ++ "=== Commit 3: Create bash profile directory ===")
         :: EvMakedirs ".bash_profile.dir" true :: t) /\
  ((forall f, In f git_operations.config_files -> os_path_exists f w = false) ->
   commands (trace_of (git_operations.commit_config w)) = [] /\
   value_of (git_operations.commit_config w) = inl tt).
Proof.
  split; [|split; [|split]].
  - intros p step Hin Hne Hp. simpl in Hin.
    destruct Hin as [Heq|[Heq|[Heq|[Heq|[Heq|[Heq|[]]]]]]];
      injection Heq as <- <-;
      try (apply guarded_step_skipped, Hp).
    contradiction Hne. reflexivity.
  - apply commit_3_skipped.
  - apply commit_3_entered.
  - intros Hnone. rewrite (commit_config_skipped _ Hnone). split; reflexivity.
Qed.

End Steps.

(** ** Which paths the scripts write themselves *)

Create HintDb no_writes.

Section Writes.
Context {World : Type} `{System World}.

Lemma writes_bind {A B} (m : Py World A) (f : A -> Py World B) w :
  writes (trace_of (bind m f w)) =
    (writes (trace_of (m w)) ++
     match value_of (m w) with
     | inl a => writes (trace_of (f a (world_of (m w))))
     | inr _ => []
     end)%list.
Proof.
  rewrite trace_of_bind, writes_app.
  destruct (value_of (m w)); reflexivity.
Qed.

Lemma no_writes_bind {A B} (m : Py World A) (f : A -> Py World B) :
  no_writes m -> (forall a, no_writes (f a)) -> no_writes (bind m f).
Proof.
  intros Hm Hf w. rewrite writes_bind, (Hm w).
  destruct (value_of (m w)) as [a|e]; [apply Hf|reflexivity].
Qed.

Lemma no_writes_ret {A} (a : A) : no_writes (ret (World := World) a).
Proof. intros w. reflexivity. Qed.

Lemma no_writes_print (s : string) : no_writes (print (World := World) s).
Proof. intros w. reflexivity. Qed.

Lemma no_writes_when (b : bool) (m : Py World unit) :
  no_writes m -> no_writes (when b m).
Proof. destruct b; [auto|]. intros _. apply no_writes_ret. Qed.

Lemma no_writes_exists (p : string) : no_writes (os.path.exists_ p).
Proof. intros w. reflexivity. Qed.

Lemma no_writes_getcwd : no_writes os.getcwd.
Proof. intros w. reflexivity. Qed.

Lemma no_writes_chdir (p : string) : no_writes (os.chdir p).
Proof.
  intros w. unfold os.chdir. destruct (os_chdir p w). reflexivity.
Qed.

Lemma no_writes_run cmd capture cwd : no_writes (subprocess.run cmd capture cwd).
Proof.
  intros w. unfold subprocess.run.
  destruct (subprocess_run cmd capture cwd w). reflexivity.
Qed.

Lemma no_writes_existing (l : list string) : no_writes (existing l).
Proof.
  induction l as [|f fs IH]; simpl.
  - apply no_writes_ret.
  - apply no_writes_bind; [apply no_writes_exists|]. intros b.
    apply no_writes_bind; [exact IH|]. intros rest. apply no_writes_ret.
Qed.

Lemma no_writes_run_git_command (cmd : string) :
  no_writes (git_operations.run_git_command cmd).
Proof.
  intros w.
  destruct (@returns_run_git_command _ _ cmd w
              (fun t _ _ => writes t = [])) as (t & w' & b & Heq & Hw).
  - auto.
  - rewrite Heq. exact Hw.
Qed.

Lemma no_writes_execute_command (cmd : string) :
  no_writes (run_git_commands.execute_command cmd).
Proof.
  intros w.
  destruct (@returns_execute_command _ _ cmd w
              (fun t _ _ => writes t = [])) as (t & w' & b & Heq & Hw).
  - auto.
  - rewrite Heq. exact Hw.
Qed.

End Writes.

#[global] Hint Resolve no_writes_ret no_writes_print no_writes_when
  no_writes_exists no_writes_getcwd no_writes_chdir no_writes_run
  no_writes_existing no_writes_run_git_command no_writes_execute_command
  : no_writes.

(** Takes a sequence of calls apart and closes each call from the hints. *)
Ltac no_writes_steps :=
  repeat first
    [ solve [auto with no_writes]
    | apply no_writes_bind; [|intros ?] ].

Section WritesOfSteps.
Context {World : Type} `{System World}.

Lemma no_writes_check_status : no_writes git_operations.check_status.
Proof. unfold git_operations.check_status. no_writes_steps. Qed.

Lemma no_writes_create_branch : no_writes git_operations.create_branch.
Proof.
  unfold git_operations.create_branch.
  apply no_writes_bind; [auto with no_writes|]. intros _.
  apply no_writes_bind; [auto with no_writes|]. intros [|]; no_writes_steps.
Qed.

Lemma no_writes_commit_1 : no_writes git_operations.commit_1.
Proof.
  unfold git_operations.commit_1.
  apply no_writes_bind; [auto with no_writes|]. intros b.
  apply no_writes_when. no_writes_steps.
Qed.

Lemma no_writes_commit_2 : no_writes git_operations.commit_2.
Proof.
  unfold git_operations.commit_2.
  apply no_writes_bind; [auto with no_writes|]. intros b.
  apply no_writes_when. no_writes_steps.
Qed.

Lemma no_writes_commit_4 : no_writes git_operations.commit_4.
Proof.
  unfold git_operations.commit_4.
  apply no_writes_bind; [auto with no_writes|]. intros b.
  apply no_writes_when. no_writes_steps.
Qed.

Lemma no_writes_commit_5 : no_writes git_operations.commit_5.
Proof.
  unfold git_operations.commit_5.
  apply no_writes_bind; [auto with no_writes|]. intros b.
  apply no_writes_when. no_writes_steps.
Qed.

Lemma no_writes_commit_6 : no_writes git_operations.commit_6.
Proof.
  unfold git_operations.commit_6.
  apply no_writes_bind; [auto with no_writes|]. intros b.
  apply no_writes_when. no_writes_steps.
Qed.

Lemma no_writes_commit_config : no_writes git_operations.commit_config.
Proof.
  unfold git_operations.commit_config.
  apply no_writes_bind; [auto with no_writes|]. intros _.
  apply no_writes_bind; [auto with no_writes|]. intros [|f fs].
  - apply no_writes_ret.
  - apply no_writes_bind; [auto with no_writes|]. intros _.
    apply no_writes_bind; [auto with no_writes|]. intros result.
    apply no_writes_when. no_writes_steps.
Qed.

Lemma no_writes_final_status : no_writes git_operations.final_status.
Proof. unfold git_operations.final_status. no_writes_steps. Qed.

Lemma no_writes_run_git_commands_main : no_writes run_git_commands.main.
Proof.
  unfold run_git_commands.main, run_git_commands.body. no_writes_steps.
Qed.

End WritesOfSteps.

(** ** Running the steps under an invariant *)

(** One call of a straight-line script. *)
Ltac run_call :=
  lazymatch goal with
  | |- returns (bind _ _) _ _ => apply returns_bind
  | |- returns (ret _) _ _ => apply returns_ret
  | |- returns (print _) _ _ => apply returns_print
  | |- returns (os.path.exists_ _) _ _ => apply returns_exists
  | |- returns os.getcwd _ _ => apply returns_getcwd
  end; cbv beta.

(** Rewrites the commands, checks and writes of the pieces of a trace with
    what is known of each. *)
Ltac read_trace :=
  rewrite ?commands_app, ?checks_app, ?writes_app; cbn [commands checks writes];
  repeat match goal with
  | Hc : commands ?t = _ |- context [commands ?t] => rewrite Hc
  | Hc : checks ?t = _ |- context [checks ?t] => rewrite Hc
  | Hc : writes ?t = _ |- context [writes ?t] => rewrite Hc
  end;
  cbn [app].

Section Invariant.
Context {World : Type} `{System World}.

(** A property of the machine state that no git command the script runs
    through [run_git_command] destroys. *)
Variable Inv : World -> Prop.
Hypothesis Inv_run :
  forall cmd w, Inv w -> Inv (fst (subprocess_run cmd true None w)).




End Invariant.

(** ** Whole runs *)

Section Runs.
Context {World : Type} `{System World}.




End Runs.

(** ** Runs on the scripted machine *)

Section ScriptedFrames.
Import Scripted.

Lemma scripted_only_initialize : only_initialize_sh only_initialize.
Proof.
  intros p Hp. simpl in Hp.
  repeat (destruct Hp as [<-|Hp]; [reflexivity|]). contradiction.
Qed.

End ScriptedFrames.

(** C1 fails as stated.  In a repository holding only [initialize.sh], with
    every command succeeding, step 3 is not skipped: its [git add] and
    [git commit] are issued before those of step 4, so the run issues two
    [git commit] commands. *)
Lemma only_initialize_sh_two_commits :
  only_initialize_sh Scripted.only_initialize /\
  commands (trace_of (git_operations.main Scripted.only_initialize)) =
    ["git status";
     "git checkout -b fix/automation-framework-compatibility";
     "git add .bash_profile.dir/";
     git_operations.git_commit git_operations.commit_msg_3;
     "git add initialize.sh";
     git_operations.git_commit git_operations.commit_msg_4;
     "git status";
     "git log --oneline -10"] /\
  length (commit_commands
            (trace_of (git_operations.main Scripted.only_initialize))) = 2 /\
  length (commit_commands
            (trace_of (git_operations.main Scripted.only_initialize))) <> 1.
Proof.
  split; [apply scripted_only_initialize|].
  split; [vm_compute; reflexivity|].
  split; [vm_compute; reflexivity|]. vm_compute. discriminate.
Qed.

(** C2 fails as stated, at step 3.  The path its test names,
    [.bash_profile.dir], is missing, and the step's [git add] and
    [git commit] are both issued. *)
Lemma commit_3_runs_when_missing :
  os_path_exists ".bash_profile.dir" Scripted.only_initialize = false /\
  commands (trace_of (git_operations.commit_3 Scripted.only_initialize)) =
    ["git add .bash_profile.dir/";
     git_operations.git_commit git_operations.commit_msg_3].
Proof. split; vm_compute; reflexivity. Qed.

Lemma missing_path_skips_step_witness :
  git_operations.commit_1 Scripted.with_profile_dir =
    ([EvExists ".automation/framework/core.sh"], Scripted.with_profile_dir,
     inl tt) /\
  git_operations.commit_3 Scripted.with_profile_dir =
    ([EvExists ".bash_profile.dir"], Scripted.with_profile_dir, inl tt) /\
  (exists t,
     trace_of (git_operations.commit_3 Scripted.only_initialize) =
       EvExists ".bash_profile.dir"
         :: EvPrint (nl ++ "=== Commit 3: Create bash profile directory ===")
         :: EvMakedirs ".bash_profile.dir" true :: t) /\
  commands (trace_of (git_operations.commit_config Scripted.with_profile_dir)) = [].
Proof.
  destruct (missing_path_skips_step Scripted.with_profile_dir)
    as (Hskip & Hthree & _ & Hconfig).
  destruct (missing_path_skips_step Scripted.only_initialize)
    as (_ & _ & Hentered & _).
  split; [|split; [|split]].
  - apply Hskip; [simpl; auto|discriminate|reflexivity].
  - apply Hthree. reflexivity.
  - apply Hentered. reflexivity.
  - apply Hconfig. intros f [<-|[<-|[<-|[]]]]; reflexivity.
Defined.



(** C6 fails as stated.  Where the repository directory is missing, the
    first statement of [git_operations.py] raises and the script ends
    there: no command is run and nothing is printed, the final status block
    included. *)
Lemma missing_repo_is_fatal :
  git_operations.main Scripted.no_repo =
    ([EvChdir git_operations.repo_path], Scripted.no_repo,
     inr "[Errno 2] No such file or directory: '/Users/mistergrinvalds/Repos/personal/bash-profile'") /\
  printed (trace_of (git_operations.main Scripted.no_repo)) = [] /\
  commands (trace_of (git_operations.main Scripted.no_repo)) = [].
Proof. repeat split. Qed.

(** The case the statement above leaves aside: with [CLAUDE.md] present,
    the direct [git diff] call is reached, and when it cannot be started
    its exception escapes the script before the final status block. *)
Lemma direct_git_diff_failure_escapes :
  value_of (git_operations.main Scripted.diff_cannot_start) =
    inr "[Errno 2] No such file or directory: '/bin/sh'" /\
  commands (trace_of (git_operations.main Scripted.diff_cannot_start)) =
    ["git status";
     "git checkout -b fix/automation-framework-compatibility";
     "git add CLAUDE.md";
     "git diff --cached --quiet"].
Proof. split; vm_compute; reflexivity. Qed.

(** C7 fails as stated.  In a repository holding only [initialize.sh],
    [git_operations.py] itself creates the directory [.bash_profile.dir] and
    writes the file [.bash_profile.dir/.gitkeep]. *)
Lemma profile_dir_written :
  writes (trace_of (git_operations.main Scripted.only_initialize)) =
    [EvMakedirs ".bash_profile.dir" true;
     EvOpenWrite ".bash_profile.dir/.gitkeep" EmptyString] /\
  os_path_exists ".bash_profile.dir/.gitkeep" Scripted.only_initialize = false /\
  os_path_exists ".bash_profile.dir/.gitkeep"
    (world_of (git_operations.main Scripted.only_initialize)) = true.
Proof. repeat split. Qed.



(** * Further properties of the two scripts *)

(** ** The runners and the list comprehension *)

Section MoreOnRunners.
Context {World : Type} `{System World}.

(** The run of the comprehension [[f for f in l if os.path.exists(f)]]. *)
Lemma existing_run (l : list string) (w : World) :
  existing l w =
    (map EvExists l, w, inl (filter (fun f => os_path_exists f w) l)).
Proof.
  induction l as [|f fs IH]; [reflexivity|].
  cbn [existing]. erewrite bind_returned by reflexivity.
  cbn [trace_of world_of value_of fst snd].
  erewrite bind_returned by exact IH.
  cbn [trace_of world_of value_of fst snd ret app map filter].
  rewrite app_nil_r. destruct (os_path_exists f w); reflexivity.
Qed.

(** X1.  The comprehension [[f for f in l if os.path.exists(f)]] tests
    every path of [l] exactly once, from left to right, runs no command,
    leaves the machine as it was and yields the existing paths in their
    order in [l]. *)
Theorem existing_is_filter (l : list string) (w : World) :
  existing l w =
    (map EvExists l, w, inl (filter (fun f => os_path_exists f w) l)) /\
  checks (trace_of (existing l w)) = l /\
  commands (trace_of (existing l w)) = [].
Proof.
  rewrite existing_run. cbn [trace_of fst]. split; [reflexivity|].
  split; induction l as [|f fs IH]; simpl; congruence.
Qed.


End MoreOnRunners.

(** ** The steps of [git_operations.py], one by one *)

Section MoreOnSteps.
Context {World : Type} `{System World}.


(** X4.  When the change into the repository directory raises,
    [git_operations.py] ends at once with that exception: nothing is
    printed, tested or run. *)
Theorem git_operations_stops_without_repository (w w1 : World) (e : exn) :
  os_chdir git_operations.repo_path w = (w1, inr e) ->
  git_operations.main w = ([EvChdir git_operations.repo_path], w1, inr e).
Proof.
  intros Hcd. unfold git_operations.main. apply bind_raised.
  unfold os.chdir. rewrite Hcd. reflexivity.
Qed.

(** X5.  Step 3 with [.bash_profile.dir] missing: when the directory cannot
    be created the step raises right after the attempt, and when the
    directory is created but [.gitkeep] cannot be written it raises right
    after that attempt.  Either way nothing is staged or committed, and
    since nothing around the step catches the exception the script ends
    there. *)
Theorem commit_3_stops_on_write_failure (w : World) :
  os_path_exists ".bash_profile.dir" w = false ->
  (forall w1 e,
      os_makedirs ".bash_profile.dir" true w = (w1, inr e) ->
      git_operations.commit_3 w =
        ([EvExists ".bash_profile.dir";
          EvPrint (nl ++ "=== Commit 3: Create bash profile directory ===");
          EvMakedirs ".bash_profile.dir" true], w1, inr e)) /\
  (forall w1 w2 e,
      os_makedirs ".bash_profile.dir" true w = (w1, inl tt) ->
      open_write ".bash_profile.dir/.gitkeep" EmptyString w1 = (w2, inr e) ->
      git_operations.commit_3 w =
        ([EvExists ".bash_profile.dir";
          EvPrint (nl ++ "=== Commit 3: Create bash profile directory ===");
          EvMakedirs ".bash_profile.dir" true;
          EvOpenWrite ".bash_profile.dir/.gitkeep" EmptyString], w2, inr e)).
Proof.
  intros Hp. split.
  - intros w1 e Hmk. unfold git_operations.commit_3.
    erewrite bind_returned by reflexivity. rewrite Hp. cbn [negb when].
    erewrite bind_returned by reflexivity.
    erewrite bind_raised
      by (unfold os.makedirs; rewrite Hmk; reflexivity).
    reflexivity.
  - intros w1 w2 e Hmk Hwr. unfold git_operations.commit_3.
    erewrite bind_returned by reflexivity. rewrite Hp. cbn [negb when].
    erewrite bind_returned by reflexivity.
    erewrite bind_returned
      by (unfold os.makedirs; rewrite Hmk; reflexivity).
    erewrite bind_raised
      by (unfold write_file; rewrite Hwr; reflexivity).
    reflexivity.
Qed.

End MoreOnSteps.

(** ** The config step, the branch step and the closing lines *)

Section MoreOnBranches.
Context {World : Type} `{System World}.

(** X6.  The config step with at least one config file present, when the
    direct [git diff] call returns: the step tests the three files in
    order, stages the present ones in one [git add], runs
    [git diff --cached --quiet] and commits exactly when that exits with a
    status other than 0.  The outcome of the [git add] plays no part. *)
Theorem config_step_commits_on_changes
  (w w2 : World) (f : string) (fs : list string) (cp : CompletedProcess) :
  filter (fun g => os_path_exists g w) git_operations.config_files = f :: fs ->
  subprocess_run "git diff --cached --quiet" false None
    (fst (subprocess_run ("git add " ++ join " " (f :: fs)) true None w)) =
    (w2, inl cp) ->
  returns git_operations.commit_config w
    (fun t _ _ =>
       commands t =
         config_commands (f :: fs) (negb (returncode cp =? 0)%Z) /\
       checks t = git_operations.config_files /\
       writes t = []).
Proof.
  intros Hfiles Hdiff. unfold git_operations.commit_config.
  do 2 run_call. run_call.
  eexists _, _, _. split; [apply existing_run|]. rewrite Hfiles.
  run_call. apply returns_run_git_command. intros t1 Hc1 Hw1 Hk1.
  run_call. eapply returns_run; [exact Hdiff|]. cbv beta.
  apply returns_when.
  - intros Hchanged. run_call.
    apply returns_run_git_command. intros t2 Hc2 Hw2 Hk2. run_call.
    rewrite Hchanged. read_trace. repeat split.
  - intros Hsame. rewrite Hsame. read_trace. repeat split.
Qed.

(** X7.  The same step when the direct [git diff] call cannot be started:
    its exception is not caught.  The step, and with it the script, ends
    there, after the files were staged and before any commit. *)
Theorem config_step_diff_failure
  (w w2 : World) (f : string) (fs : list string) (e : exn) :
  filter (fun g => os_path_exists g w) git_operations.config_files = f :: fs ->
  subprocess_run "git diff --cached --quiet" false None
    (fst (subprocess_run ("git add " ++ join " " (f :: fs)) true None w)) =
    (w2, inr e) ->
  value_of (git_operations.commit_config w) = inr e /\
  world_of (git_operations.commit_config w) = w2 /\
  commands (trace_of (git_operations.commit_config w)) =
    [("git add " ++ join " " (f :: fs))%string; "git diff --cached --quiet"].
Proof.
  intros Hfiles Hdiff.
  destruct (@returns_run_git_command _ _ ("git add " ++ join " " (f :: fs)) w
              (fun t _ _ => commands t = [("git add " ++ join " " (f :: fs))%string]))
    as (t1 & w1 & b & Hadd & Hc1); [auto|].
  assert (Hw1 : w1 = fst (subprocess_run ("git add " ++ join " " (f :: fs))
                            true None w)).
  { destruct (subprocess_run ("git add " ++ join " " (f :: fs)) true None w)
      as [u [cp|e']] eqn:Hrun.
    - rewrite (run_git_command_completed _ _ Hrun) in Hadd.
      injection Hadd as _ <- _. reflexivity.
    - rewrite (run_git_command_raised _ _ Hrun) in Hadd.
      injection Hadd as _ <- _. reflexivity. }
  subst w1.
  assert (Hinner :
    (git_operations.run_git_command ("git add " ++ join " " (f :: fs)) ;;
     result <- subprocess.run "git diff --cached --quiet" false None ;;
     when (negb (returncode result =? 0)%Z)
       (git_operations.run_git_command
          (git_operations.git_commit git_operations.commit_msg_config) ;;
        ret tt)) w =
    ((t1 ++ [EvRun "git diff --cached --quiet" false None])%list, w2, inr e)).
  { erewrite bind_returned by exact Hadd.
    erewrite bind_raised
      by (unfold subprocess.run; rewrite Hdiff; reflexivity).
    reflexivity. }
  unfold git_operations.commit_config.
  erewrite bind_returned by reflexivity.
  erewrite bind_returned by apply existing_run.
  rewrite Hfiles, Hinner.
  cbn [trace_of world_of value_of fst snd].
  repeat split.
  rewrite !commands_app, Hc1.
  replace (commands (map EvExists git_operations.config_files)) with (@nil string)
    by reflexivity.
  reflexivity.
Qed.

End MoreOnBranches.

Section MoreOnMessages.
Context {World : Type} `{System World}.


Lemma str_of_int_inj (a b : Z) : str_of_int a = str_of_int b -> a = b.
Proof.
  assert (Hparse : forall z,
            NilZero.int_of_string (str_of_int z) = Some (Z.to_int z)).
  { intros z. apply NilZero.isi; destruct z; simpl; try discriminate;
      intros [= Hnil]; exact (DecimalPos.Unsigned.to_uint_nonnil _ Hnil). }
  intros Heq. apply DecimalZ.to_int_inj.
  pose proof (Hparse a) as Ha. rewrite Heq, Hparse in Ha.
  injection Ha as Ha. symmetry. exact Ha.
Qed.

End MoreOnMessages.

(** ** What any run may cost *)

Lemma within_budget_nil (n : nat) : within_budget n [].
Proof. split; [reflexivity|apply Nat.le_0_l]. Qed.

Lemma within_budget_app (a b : nat) (l1 l2 : list string) :
  within_budget a l1 -> within_budget b l2 ->
  within_budget (a + b) (l1 ++ l2).
Proof.
  intros [Hk1 Hn1] [Hk2 Hn2]. split.
  - rewrite forallb_app, Hk1, Hk2. reflexivity.
  - rewrite filter_app, length_app. lia.
Qed.

Lemma within_budget_mono (a b : nat) (l : list string) :
  a <= b -> within_budget a l -> within_budget b l.
Proof. intros Hab [Hk Hn]. split; [exact Hk|lia]. Qed.

Lemma within_budget_one (cmd : string) :
  known_command cmd = true ->
  within_budget (if is_git_commit cmd then 1 else 0) [cmd].
Proof.
  intros Hk. split.
  - simpl. rewrite Hk. reflexivity.
  - simpl. destruct (is_git_commit cmd); simpl; lia.
Qed.

Section Spending.
Context {World : Type} `{System World}.

(** The rule for a sequence; the second part may use the value and state
    the first part left. *)
Lemma spends_bind {A B} (m : Py World A) (f : A -> Py World B) (a b : nat) :
  spends m a ->
  (forall w x, value_of (m w) = inl x ->
               within_budget b (commands (trace_of (f x (world_of (m w)))))) ->
  spends (bind m f) (a + b).
Proof.
  intros Hm Hf w. rewrite trace_of_bind, commands_app.
  apply within_budget_app; [apply Hm|].
  destruct (value_of (m w)) as [x|e] eqn:Hv.
  - apply (Hf w x Hv).
  - apply within_budget_nil.
Qed.

Lemma spends_seq {A B} (m : Py World A) (f : A -> Py World B) (a b : nat) :
  spends m a -> (forall x, spends (f x) b) -> spends (bind m f) (a + b).
Proof.
  intros Hm Hf. apply spends_bind; [exact Hm|]. intros w x _. apply Hf.
Qed.

Lemma spends_le {A} (m : Py World A) (a b : nat) :
  spends m a -> a <= b -> spends m b.
Proof. intros Hm Hab w. apply (within_budget_mono Hab), Hm. Qed.

Lemma spends_ret {A} (x : A) : spends (ret (World := World) x) 0.
Proof. intros w. apply within_budget_nil. Qed.

Lemma spends_print (s : string) : spends (print (World := World) s) 0.
Proof. intros w. apply within_budget_nil. Qed.

Lemma spends_when (c : bool) (m : Py World unit) (n : nat) :
  spends m n -> spends (when c m) n.
Proof.
  destruct c; [auto|]. intros _ w. apply within_budget_nil.
Qed.

Lemma spends_exists (p : string) : spends (os.path.exists_ p) 0.
Proof. intros w. apply within_budget_nil. Qed.

Lemma spends_chdir (p : string) : spends (os.chdir p) 0.
Proof.
  intros w. unfold os.chdir. destruct (os_chdir p w).
  apply within_budget_nil.
Qed.

Lemma spends_makedirs (p : string) (e : bool) : spends (os.makedirs p e) 0.
Proof.
  intros w. unfold os.makedirs. destruct (os_makedirs p e w).
  apply within_budget_nil.
Qed.

Lemma spends_write_file (p d : string) : spends (write_file p d) 0.
Proof.
  intros w. unfold write_file. destruct (open_write p d w).
  apply within_budget_nil.
Qed.

Lemma spends_existing (l : list string) : spends (existing l) 0.
Proof.
  intros w. rewrite existing_run. cbn [trace_of fst].
  replace (commands (map EvExists l)) with (@nil string);
    [apply within_budget_nil|].
  induction l; [reflexivity|assumption].
Qed.

Lemma spends_run_git_command (cmd : string) :
  known_command cmd = true ->
  spends (git_operations.run_git_command cmd)
    (if is_git_commit cmd then 1 else 0).
Proof.
  intros Hk w.
  destruct (@returns_run_git_command _ _ cmd w (fun t _ _ => commands t = [cmd]))
    as (t & w' & b & Heq & Hc); [auto|].
  rewrite Heq. cbn [trace_of fst]. rewrite Hc. apply within_budget_one, Hk.
Qed.

Lemma spends_direct_run (cmd : string) (capture : bool) (cwd : option string) :
  known_command cmd = true -> is_git_commit cmd = false ->
  spends (subprocess.run cmd capture cwd) 0.
Proof.
  intros Hk Hc w. unfold subprocess.run.
  destruct (subprocess_run cmd capture cwd w). cbn [trace_of fst commands].
  pose proof (within_budget_one cmd Hk) as Hone. rewrite Hc in Hone.
  exact Hone.
Qed.

(** A step of the shape of steps 1, 2, 4, 5 and 6 issues known commands
    and at most one commit. *)
Lemma spends_guarded_step (p title add msg : string) :
  known_command add = true -> is_git_commit add = false ->
  known_command (git_operations.git_commit msg) = true ->
  spends
    (present <- os.path.exists_ p ;;
     when present
       (print title ;;
        git_operations.run_git_command add ;;
        git_operations.run_git_command (git_operations.git_commit msg) ;;
        ret tt)) 1.
Proof.
  intros Hadd Hnot Hcommit. eapply spends_le.
  - eapply spends_seq; [apply spends_exists|intros present].
    apply spends_when.
    eapply spends_seq; [apply spends_print|intros _].
    eapply spends_seq; [apply (spends_run_git_command _ Hadd)|intros _].
    eapply spends_seq;
      [apply (spends_run_git_command _ Hcommit)|intros _; apply spends_ret].
  - rewrite Hnot. destruct (is_git_commit _); simpl; lia.
Qed.

End Spending.

Section SpendingOfSteps.
Context {World : Type} `{System World}.

Lemma spends_check_status : spends git_operations.check_status 0.
Proof.
  unfold git_operations.check_status. eapply spends_le.
  - eapply spends_seq; [apply spends_print|intros _].
    eapply spends_seq;
      [apply spends_run_git_command; reflexivity|intros _; apply spends_ret].
  - simpl. lia.
Qed.

Lemma spends_create_branch : spends git_operations.create_branch 0.
Proof.
  unfold git_operations.create_branch. eapply spends_le.
  - eapply spends_seq; [apply spends_print|intros _].
    eapply spends_seq;
      [apply spends_run_git_command; reflexivity|intros created].
    instantiate (1 := 0). destruct created.
    + apply spends_print.
    + eapply spends_le.
      * eapply spends_seq; [apply spends_print|intros _].
        eapply spends_seq;
          [apply spends_run_git_command; reflexivity
          |intros _; apply spends_ret].
      * simpl. lia.
  - simpl. lia.
Qed.

Lemma spends_commit_3 : spends git_operations.commit_3 1.
Proof.
  unfold git_operations.commit_3. eapply spends_le.
  - eapply spends_seq; [apply spends_exists|intros present].
    apply spends_when.
    eapply spends_seq; [apply spends_print|intros _].
    eapply spends_seq; [apply spends_makedirs|intros _].
    eapply spends_seq; [apply spends_write_file|intros _].
    eapply spends_seq;
      [apply spends_run_git_command; reflexivity|intros _].
    eapply spends_seq;
      [apply spends_run_git_command; reflexivity|intros _; apply spends_ret].
  - simpl. lia.
Qed.

(** Whichever of the three config files exist, their [git add] is a known
    command. *)
Lemma config_add_known (present : string -> bool) (f : string) (fs : list string) :
  filter present git_operations.config_files = f :: fs ->
  known_command ("git add " ++ join " " (f :: fs)) = true.
Proof.
  unfold git_operations.config_files. cbn [filter].
  destruct (present "CLAUDE.md"), (present "package.json"),
    (present "package-lock.json"); intros Heq; try discriminate;
    injection Heq as <- <-; reflexivity.
Qed.

Lemma spends_config_tail (f : string) (fs : list string) :
  known_command ("git add " ++ join " " (f :: fs)) = true ->
  spends
    (git_operations.run_git_command ("git add " ++ join " " (f :: fs)) ;;
     result <- subprocess.run "git diff --cached --quiet" false None ;;
     when (negb (returncode result =? 0)%Z)
       (git_operations.run_git_command
          (git_operations.git_commit git_operations.commit_msg_config) ;;
        ret tt)) 1.
Proof.
  intros Hknown. eapply spends_le.
  - eapply spends_seq; [apply (spends_run_git_command _ Hknown)|intros _].
    eapply spends_seq; [apply spends_direct_run; reflexivity|intros result].
    apply spends_when.
    eapply spends_seq;
      [apply spends_run_git_command; reflexivity|intros _; apply spends_ret].
  - replace (is_git_commit ("git add " ++ join " " (f :: fs))) with false
      by reflexivity.
    simpl. lia.
Qed.

Lemma spends_commit_config : spends git_operations.commit_config 1.
Proof.
  unfold git_operations.commit_config. eapply spends_le.
  - eapply spends_seq; [apply spends_print|intros _].
    eapply spends_bind; [apply spends_existing|].
    intros w files Hfiles.
    assert (Hfilter :
      filter (fun f => os_path_exists f w) git_operations.config_files = files).
    { rewrite existing_run in Hfiles. injection Hfiles as <-.
      reflexivity. }
    replace (world_of (existing git_operations.config_files w)) with w
      by (rewrite existing_run; reflexivity).
    destruct files as [|f fs].
    + apply (within_budget_nil 1).
    + apply spends_config_tail. apply (config_add_known _ Hfilter).
  - simpl. lia.
Qed.

Lemma spends_final_status : spends git_operations.final_status 0.
Proof.
  unfold git_operations.final_status. eapply spends_le.
  - eapply spends_seq; [apply spends_print|intros _].
    eapply spends_seq;
      [apply spends_run_git_command; reflexivity|intros _].
    eapply spends_seq;
      [apply spends_run_git_command; reflexivity|intros _].
    eapply spends_seq; [apply spends_print|intros _].
    eapply spends_seq; [apply spends_print|intros _; apply spends_print].
  - simpl. lia.
Qed.

Lemma spends_main : spends git_operations.main 7.
Proof.
  unfold git_operations.main, git_operations.body. eapply spends_le.
  - eapply spends_seq; [apply spends_chdir|intros _].
    eapply spends_seq; [apply spends_check_status|intros _].
    eapply spends_seq; [apply spends_create_branch|intros _].
    eapply spends_seq;
      [apply spends_guarded_step; reflexivity|intros _].
    eapply spends_seq;
      [apply spends_guarded_step; reflexivity|intros _].
    eapply spends_seq; [apply spends_commit_3|intros _].
    eapply spends_seq;
      [apply spends_guarded_step; reflexivity|intros _].
    eapply spends_seq;
      [apply spends_guarded_step; reflexivity|intros _].
    eapply spends_seq;
      [apply spends_guarded_step; reflexivity|intros _].
    eapply spends_seq;
      [apply spends_commit_config|intros _; apply spends_final_status].
  - simpl. lia.
Qed.

(** X11.  Whatever the machine does, and whether the run reaches its end or
    is cut short by an exception, every command [git_operations.py] hands
    to the shell is one of the known commands: [git status], the two
    checkouts of the fixed branch, [git log --oneline -10],
    [git diff --cached --quiet], a [git add] of tested paths only, or one of
    the seven fixed commits.  In particular it never pushes, although its
    last line says how to. *)
Theorem git_operations_runs_known_commands_only (w : World) :
  Forall (fun cmd => In cmd known_commands)
    (commands (trace_of (git_operations.main w))).
Proof.
  destruct (spends_main w) as [Hknown _].
  rewrite forallb_forall in Hknown. apply Forall_forall. intros cmd Hin.
  specialize (Hknown cmd Hin). unfold known_command in Hknown.
  apply existsb_exists in Hknown. destruct Hknown as (c & Hc & Heq).
  apply String.eqb_eq in Heq. subst c. exact Hc.
Qed.

(** X12.  Whatever the machine does, a run of [git_operations.py] issues at
    most seven [git commit] commands, one per step at most. *)
Theorem git_operations_commits_at_most_seven (w : World) :
  length (commit_commands (trace_of (git_operations.main w))) <= 7.
Proof. destruct (spends_main w) as [_ Hcount]. exact Hcount. Qed.

End SpendingOfSteps.

(** The bound is reached: with every tested file present,
    [.bash_profile.dir] missing and a diff that reports changes, seven
    commits are issued. *)
Lemma seven_commits_reached :
  length (commit_commands
            (trace_of (git_operations.main Fixtures.full_repository))) = 7.
Proof. vm_compute. reflexivity. Qed.


(** ** Further runs on the scripted machines *)


Lemma git_operations_stops_without_repository_witness :
  git_operations.main Scripted.no_repo =
    ([EvChdir git_operations.repo_path], Scripted.no_repo,
     inr "[Errno 2] No such file or directory: '/Users/mistergrinvalds/Repos/personal/bash-profile'").
Proof.
  apply git_operations_stops_without_repository. reflexivity.
Defined.

Lemma commit_3_stops_on_write_failure_witness :
  value_of (git_operations.commit_3 Guarded.no_mkdir) =
    inr "[Errno 13] Permission denied: '.bash_profile.dir'" /\
  commands (trace_of (git_operations.commit_3 Guarded.no_mkdir)) = [] /\
  value_of (git_operations.commit_3 Guarded.no_write) =
    inr "[Errno 13] Permission denied: '.bash_profile.dir/.gitkeep'" /\
  commands (trace_of (git_operations.commit_3 Guarded.no_write)) = [].
Proof.
  assert (H1 : os_path_exists ".bash_profile.dir" Guarded.no_mkdir = false)
    by reflexivity.
  assert (H2 : os_path_exists ".bash_profile.dir" Guarded.no_write = false)
    by reflexivity.
  destruct (commit_3_stops_on_write_failure Guarded.no_mkdir H1) as [Hmkdir _].
  destruct (commit_3_stops_on_write_failure Guarded.no_write H2) as [_ Hwrite].
  erewrite Hmkdir by reflexivity. erewrite Hwrite by reflexivity.
  repeat split.
Defined.

Lemma config_step_commits_on_changes_witness :
  returns git_operations.commit_config Fixtures.nothing_staged
    (fun t _ _ =>
       commands t =
         ["git add CLAUDE.md package-lock.json"; "git diff --cached --quiet"] /\
       checks t = git_operations.config_files /\
       writes t = []).
Proof.
  apply (@config_step_commits_on_changes _ _ Fixtures.nothing_staged
           (Scripted.mkMachine true ["CLAUDE.md"; "package-lock.json"] [])
           "CLAUDE.md" ["package-lock.json"]
           (mkCompleted 0 EmptyString EmptyString)).
  - reflexivity.
  - reflexivity.
Defined.

Lemma config_step_diff_failure_witness :
  value_of (git_operations.commit_config Fixtures.diff_fails) =
    inr "[Errno 2] No such file or directory: '/bin/sh'" /\
  world_of (git_operations.commit_config Fixtures.diff_fails) =
    Scripted.mkMachine true ["package.json"] [] /\
  commands (trace_of (git_operations.commit_config Fixtures.diff_fails)) =
    ["git add package.json"; "git diff --cached --quiet"].
Proof.
  apply (@config_step_diff_failure _ _ Fixtures.diff_fails
           (Scripted.mkMachine true ["package.json"] [])
           "package.json" []).
  - reflexivity.
  - reflexivity.
Defined.

Section MoreOnRunGitCommands.
Context {World : Type} `{System World}.


End MoreOnRunGitCommands.


(** * The runners, with prints that can raise *)

(** ** What a runner does after [subprocess.run] *)

Section PreciseRunners.
Context {World : Type} `{Precise.Host World}.

Lemma attempt_accepted (lines : list string) (u : World) :
  Precise.accepted lines u -> Precise.attempt lines u = (lines, None).
Proof.
  induction lines as [|l ls IH]; intros Hacc; [reflexivity|].
  cbn [Precise.attempt]. rewrite (Hacc l) by (left; reflexivity).
  rewrite IH; [reflexivity|]. intros s Hs. apply Hacc. right. exact Hs.
Qed.

Lemma attempt_none (lines ws : list string) (u : World) :
  Precise.attempt lines u = (ws, None) ->
  ws = lines /\ Precise.accepted lines u.
Proof.
  revert ws. induction lines as [|l ls IH]; intros ws Heq.
  - injection Heq as <-. split; [reflexivity|]. intros s [].
  - cbn [Precise.attempt] in Heq.
    destruct (Precise.host_print l u) as [x|] eqn:Hl; [discriminate|].
    destruct (Precise.attempt ls u) as [ws' x'] eqn:Hls.
    injection Heq as <- ->. destruct (IH ws' eq_refl) as [-> Hacc].
    split; [reflexivity|]. intros s [<-|Hs]; [exact Hl|apply Hacc, Hs].
Qed.

Lemma attempt_stopped (lines ws : list string) (u : World) (x : Precise.raised) :
  Precise.attempt lines u = (ws, Some x) ->
  ws = firstn (length ws) lines /\ length ws < length lines /\
  exists l, In l lines /\ Precise.host_print l u = Some x.
Proof.
  revert ws. induction lines as [|l ls IH]; intros ws Heq; [discriminate|].
  cbn [Precise.attempt] in Heq.
  destruct (Precise.host_print l u) as [y|] eqn:Hl.
  - injection Heq as <- <-. split; [reflexivity|]. split; [simpl; lia|].
    exists l. split; [left; reflexivity|exact Hl].
  - destruct (Precise.attempt ls u) as [ws' x'] eqn:Hls.
    injection Heq as <- ->. destruct (IH ws' eq_refl) as (Hws & Hlen & s & Hs & Hx).
    split; [simpl; f_equal; exact Hws|]. split; [simpl; lia|].
    exists s. split; [right; exact Hs|exact Hx].
Qed.

(** The runner of [git_operations.py], in closed form. *)
Lemma run_git_command_settles (cmd : string) (w : World) :
  Precise.git_operations.run_git_command cmd w =
    let (u, r) := Precise.host_run cmd true None w in
    match Precise.settle (Precise.git_lines cmd)
            (Precise.git_failure_line cmd) u r with
    | (t, u', v) => (EvRun cmd true None :: t, u', v)
    end.
Proof.
  unfold Precise.git_operations.run_git_command, Precise.try_except,
    Precise.bind, Precise.subprocess.run.
  destruct (Precise.host_run cmd true None w) as [u [cp|[e|e]]].
  - unfold Precise.settle, Precise.git_lines, Precise.when, Precise.print,
      Precise.ret, Precise.handled, Precise.git_failure_line.
    destruct (truthy (stdout cp)), (truthy (stderr cp));
      cbn [app Precise.attempt];
      repeat match goal with
      | |- context [Precise.host_print ?s u] =>
          destruct (Precise.host_print s u) as [[?|?]|]
      end; reflexivity.
  - unfold Precise.settle, Precise.print, Precise.ret, Precise.handled,
      Precise.git_failure_line.
    destruct (Precise.host_print _ u) as [[?|?]|]; reflexivity.
  - reflexivity.
Qed.

(** The runner of [run_git_commands.py], in closed form: its first print
    is outside the [try]. *)
Lemma execute_command_settles (cmd : string) (w : World) :
  Precise.run_git_commands.execute_command cmd w =
    match Precise.host_print (nl ++ ">>> Executing: " ++ cmd) w with
    | Some x => ([], w, inr x)
    | None =>
        let (u, r) :=
          Precise.host_run cmd true
            (Some Precise.run_git_commands.repo_path) w in
        match Precise.settle Precise.exec_lines Precise.exec_failure_line u r with
        | (t, u', v) =>
            (EvPrint (nl ++ ">>> Executing: " ++ cmd)
               :: EvRun cmd true (Some Precise.run_git_commands.repo_path)
               :: t, u', v)
        end
    end.
Proof.
  unfold Precise.run_git_commands.execute_command, Precise.bind.
  unfold Precise.print at 1.
  destruct (Precise.host_print (nl ++ ">>> Executing: " ++ cmd) w) as [x|];
    [reflexivity|].
  unfold Precise.try_except, Precise.bind, Precise.subprocess.run.
  destruct (Precise.host_run cmd true
              (Some Precise.run_git_commands.repo_path) w) as [u [cp|[e|e]]].
  - unfold Precise.settle, Precise.exec_lines, Precise.when, Precise.print,
      Precise.ret, Precise.handled, Precise.exec_failure_line.
    destruct (truthy (stdout cp)), (truthy (stderr cp));
      cbn [app Precise.attempt];
      repeat match goal with
      | |- context [Precise.host_print ?s u] =>
          destruct (Precise.host_print s u) as [[?|?]|]
      end; reflexivity.
  - unfold Precise.settle, Precise.print, Precise.ret, Precise.handled,
      Precise.exec_failure_line.
    destruct (Precise.host_print _ u) as [[?|?]|]; reflexivity.
  - reflexivity.
Qed.

End PreciseRunners.

Section Settling.
Context {World : Type} `{Precise.Host World}.
Variable lines : CompletedProcess -> list string.
Variable failure : string -> string.

Lemma settle_accepted (u : World) (cp : CompletedProcess) :
  Precise.accepted (lines cp) u ->
  Precise.settle lines failure u (inl cp) =
    (map EvPrint (lines cp), u, inl (returncode cp =? 0)%Z).
Proof.
  intros Hacc. unfold Precise.settle. rewrite (attempt_accepted Hacc).
  reflexivity.
Qed.

Lemma handled_value (line : string) (u : World) :
  Precise.value_of (Precise.handled line u) =
    match Precise.host_print line u with
    | None => inl false
    | Some x => inr x
    end.
Proof.
  unfold Precise.handled. destruct (Precise.host_print line u); reflexivity.
Qed.

Lemma settle_true (u : World) (r : CompletedProcess + Precise.raised) :
  Precise.value_of (Precise.settle lines failure u r) = inl true ->
  exists cp, r = inl cp /\ returncode cp = 0%Z /\ Precise.accepted (lines cp) u.
Proof.
  unfold Precise.settle. destruct r as [cp|[e|e]].
  - destruct (Precise.attempt (lines cp) u) as [ws [[e|e]|]] eqn:Hatt.
    + pose proof (handled_value (failure e) u) as Hv.
      destruct (Precise.handled (failure e) u) as [[t u'] v].
      cbn [Precise.value_of snd] in *. intros ->.
      destruct (Precise.host_print (failure e) u); discriminate.
    + discriminate.
    + cbn [Precise.value_of snd]. intros Heq. injection Heq as Hz.
      apply Z.eqb_eq in Hz. destruct (attempt_none _ _ Hatt) as [_ Hacc].
      exists cp. auto.
  - rewrite handled_value.
    destruct (Precise.host_print (failure e) u); discriminate.
  - discriminate.
Qed.


(** With a line of the report refused, but prints raising [Exception]s
    only and the handler's line for such an exception taken, the runner
    returns [False]. *)
Lemma settle_refused (u : World) (cp : CompletedProcess) :
  (exists l, In l (lines cp) /\ Precise.host_print l u <> None) ->
  (forall l e, In l (lines cp) ->
               Precise.host_print l u <> Some (Precise.BaseException e)) ->
  (forall l e, In l (lines cp) ->
               Precise.host_print l u = Some (Precise.Exception e) ->
               Precise.host_print (failure e) u = None) ->
  Precise.value_of (Precise.settle lines failure u (inl cp)) = inl false.
Proof.
  intros (l & Hl & Hrefused) Hkind Hhandler. unfold Precise.settle.
  destruct (Precise.attempt (lines cp) u) as [ws [[e|e]|]] eqn:Hatt.
  - destruct (attempt_stopped _ _ Hatt) as (_ & _ & s & Hin & Hs).
    unfold Precise.handled. rewrite (Hhandler s e Hin Hs). reflexivity.
  - destruct (attempt_stopped _ _ Hatt) as (_ & _ & s & Hin & Hs).
    contradiction (Hkind s e Hin Hs).
  - destruct (attempt_none _ _ Hatt) as [_ Hacc].
    contradiction Hrefused. apply Hacc, Hl.
Qed.

End Settling.

Section SettlingMore.
Context {World : Type} `{Precise.Host World}.
Variable lines : CompletedProcess -> list string.
Variable failure : string -> string.

Lemma printed_map_EvPrint (ws : list string) : printed (map EvPrint ws) = ws.
Proof. induction ws as [|a ws IH]; simpl; congruence. Qed.

(** What escapes was raised as something that is not an [Exception], by
    [subprocess.run] or by a print, or was raised by the handler's own
    print. *)
Lemma settle_escapes (u : World) (r : CompletedProcess + Precise.raised)
  (x : Precise.raised) :
  Precise.value_of (Precise.settle lines failure u r) = inr x ->
  (r = inr x /\ exists e, x = Precise.BaseException e) \/
  (exists l,
     Precise.host_print l u = Some x /\
     ((exists e, x = Precise.BaseException e) \/ exists e, l = failure e)).
Proof.
  unfold Precise.settle. destruct r as [cp|[e|e]].
  - destruct (Precise.attempt (lines cp) u) as [ws [[e|e]|]] eqn:Hatt.
    + pose proof (handled_value (failure e) u) as Hv.
      destruct (Precise.handled (failure e) u) as [[t u'] v].
      cbn [Precise.value_of snd] in *. intros ->.
      destruct (Precise.host_print (failure e) u) as [y|] eqn:Hy;
        [|discriminate].
      injection Hv as <-. right. exists (failure e). split; [exact Hy|].
      right. exists e. reflexivity.
    + cbn [Precise.value_of snd]. intros Heq. injection Heq as <-.
      destruct (attempt_stopped _ _ Hatt) as (_ & _ & l & _ & Hl).
      right. exists l. split; [exact Hl|]. left. exists e. reflexivity.
    + discriminate.
  - rewrite handled_value.
    destruct (Precise.host_print (failure e) u) as [y|] eqn:Hy;
      [|discriminate].
    intros Heq. injection Heq as <-. right. exists (failure e).
    split; [exact Hy|]. right. exists e. reflexivity.
  - cbn [Precise.value_of snd]. intros Heq. injection Heq as <-.
    left. split; [reflexivity|]. exists e. reflexivity.
Qed.

(** The handler at work, case by case. *)
Lemma settle_exception (u : World) (e : string) :
  Precise.settle lines failure u (inr (Precise.Exception e)) =
    match Precise.host_print (failure e) u with
    | None => ([EvPrint (failure e)], u, inl false)
    | Some x => ([], u, inr x)
    end.
Proof. reflexivity. Qed.

(** The lines of the report play no part but through [lines]. *)
Lemma settle_trace_lines (u : World) (cp cp' : CompletedProcess) :
  lines cp = lines cp' ->
  Precise.trace_of (Precise.settle lines failure u (inl cp)) =
  Precise.trace_of (Precise.settle lines failure u (inl cp')).
Proof.
  intros Heq. unfold Precise.settle. rewrite Heq.
  destruct (Precise.attempt (lines cp') u) as [ws [[e|e]|]]; reflexivity.
Qed.

End SettlingMore.

(** ** The runners, case by case *)

Section PreciseCases.
Context {World : Type} `{Precise.Host World}.

Lemma run_git_command_value (cmd : string) (w u : World)
  (r : CompletedProcess + Precise.raised) :
  Precise.host_run cmd true None w = (u, r) ->
  Precise.value_of (Precise.git_operations.run_git_command cmd w) =
    Precise.value_of
      (Precise.settle (Precise.git_lines cmd) (Precise.git_failure_line cmd) u r).
Proof.
  intros Hrun. rewrite run_git_command_settles, Hrun.
  destruct (Precise.settle _ _ u r) as [[t u'] v]. reflexivity.
Qed.


Lemma execute_command_value (cmd : string) (w u : World)
  (r : CompletedProcess + Precise.raised) :
  Precise.host_print (Precise.exec_heading cmd) w = None ->
  Precise.host_run cmd true (Some Precise.run_git_commands.repo_path) w = (u, r) ->
  Precise.value_of (Precise.run_git_commands.execute_command cmd w) =
    Precise.value_of
      (Precise.settle Precise.exec_lines Precise.exec_failure_line u r).
Proof.
  intros Hhead Hrun. rewrite execute_command_settles.
  unfold Precise.exec_heading in Hhead. rewrite Hhead, Hrun.
  destruct (Precise.settle _ _ u r) as [[t u'] v]. reflexivity.
Qed.

Lemma execute_command_printed (cmd : string) (w u : World)
  (r : CompletedProcess + Precise.raised) :
  Precise.host_print (Precise.exec_heading cmd) w = None ->
  Precise.host_run cmd true (Some Precise.run_git_commands.repo_path) w = (u, r) ->
  printed (Precise.trace_of (Precise.run_git_commands.execute_command cmd w)) =
    Precise.exec_heading cmd
      :: printed
           (Precise.trace_of
              (Precise.settle Precise.exec_lines Precise.exec_failure_line u r)).
Proof.
  intros Hhead Hrun. rewrite execute_command_settles.
  unfold Precise.exec_heading in Hhead. rewrite Hhead, Hrun.
  destruct (Precise.settle _ _ u r) as [[t u'] v]. reflexivity.
Qed.

(** A heading that is refused ends [execute_command] before it runs
    anything. *)
Lemma execute_command_heading_refused (cmd : string) (w : World)
  (x : Precise.raised) :
  Precise.host_print (Precise.exec_heading cmd) w = Some x ->
  Precise.run_git_commands.execute_command cmd w = ([], w, inr x).
Proof.
  intros Hhead. rewrite execute_command_settles.
  unfold Precise.exec_heading in Hhead. rewrite Hhead. reflexivity.
Qed.

End PreciseCases.

(** ** What a runner lets escape *)

Section Containment.
Context {World : Type} `{Precise.Host World}.

(** C5, as amended.  A non-zero exit status is no exception: when the child
    process completes and the console takes the lines of the report, either
    runner returns a boolean, [False] for a status other than 0.  When
    [subprocess.run] raises an [Exception] and the console takes the
    handler's line, the runner prints that one line, which holds the text
    of the exception, and returns [False].  The containment has three
    holes.  What is raised and is not an [Exception] ([KeyboardInterrupt],
    [SystemExit]) passes through the [except Exception]; what the
    handler's own print raises is raised to the caller; and the heading of
    [execute_command] is printed before its [try], so what that print
    raises is raised to the caller before any command is run.  Nothing else
    escapes. *)
Theorem runners_contain_failures (cmd : string) (w : World) :
  (forall u cp,
      Precise.host_run cmd true None w = (u, inl cp) ->
      Precise.accepted (Precise.git_lines cmd cp) u ->
      Precise.git_operations.run_git_command cmd w =
        (EvRun cmd true None :: map EvPrint (Precise.git_lines cmd cp), u,
         inl (returncode cp =? 0)%Z)) /\
  (forall u e,
      Precise.host_run cmd true None w = (u, inr (Precise.Exception e)) ->
      Precise.git_operations.run_git_command cmd w =
        match Precise.host_print (Precise.git_failure_line cmd e) u with
        | None =>
            ([EvRun cmd true None; EvPrint (Precise.git_failure_line cmd e)],
             u, inl false)
        | Some x => ([EvRun cmd true None], u, inr x)
        end) /\
  (forall u e,
      Precise.host_run cmd true None w = (u, inr (Precise.BaseException e)) ->
      Precise.git_operations.run_git_command cmd w =
        ([EvRun cmd true None], u, inr (Precise.BaseException e))) /\
  (forall x,
      Precise.value_of (Precise.git_operations.run_git_command cmd w) = inr x ->
      (snd (Precise.host_run cmd true None w) = inr x /\
       exists e, x = Precise.BaseException e) \/
      (exists l,
         Precise.host_print l (fst (Precise.host_run cmd true None w)) = Some x /\
         ((exists e, x = Precise.BaseException e) \/
          exists e, l = Precise.git_failure_line cmd e))) /\
  (forall x,
      Precise.host_print (Precise.exec_heading cmd) w = Some x ->
      Precise.run_git_commands.execute_command cmd w = ([], w, inr x)) /\
  (Precise.host_print (Precise.exec_heading cmd) w = None ->
   (forall u cp,
       Precise.host_run cmd true (Some Precise.run_git_commands.repo_path) w =
         (u, inl cp) ->
       Precise.accepted (Precise.exec_lines cp) u ->
       Precise.run_git_commands.execute_command cmd w =
         (EvPrint (Precise.exec_heading cmd)
            :: EvRun cmd true (Some Precise.run_git_commands.repo_path)
            :: map EvPrint (Precise.exec_lines cp), u,
          inl (returncode cp =? 0)%Z)) /\
   (forall u e,
       Precise.host_run cmd true (Some Precise.run_git_commands.repo_path) w =
         (u, inr (Precise.Exception e)) ->
       Precise.run_git_commands.execute_command cmd w =
         match Precise.host_print (Precise.exec_failure_line e) u with
         | None =>
             ([EvPrint (Precise.exec_heading cmd);
               EvRun cmd true (Some Precise.run_git_commands.repo_path);
               EvPrint (Precise.exec_failure_line e)], u, inl false)
         | Some x =>
             ([EvPrint (Precise.exec_heading cmd);
               EvRun cmd true (Some Precise.run_git_commands.repo_path)],
              u, inr x)
         end) /\
   (forall u e,
       Precise.host_run cmd true (Some Precise.run_git_commands.repo_path) w =
         (u, inr (Precise.BaseException e)) ->
       Precise.run_git_commands.execute_command cmd w =
         ([EvPrint (Precise.exec_heading cmd);
           EvRun cmd true (Some Precise.run_git_commands.repo_path)],
          u, inr (Precise.BaseException e))) /\
   (forall x,
       Precise.value_of (Precise.run_git_commands.execute_command cmd w) = inr x ->
       (snd (Precise.host_run cmd true
               (Some Precise.run_git_commands.repo_path) w) = inr x /\
        exists e, x = Precise.BaseException e) \/
       (exists l,
          Precise.host_print l
            (fst (Precise.host_run cmd true
                    (Some Precise.run_git_commands.repo_path) w)) = Some x /\
          ((exists e, x = Precise.BaseException e) \/
           exists e, l = Precise.exec_failure_line e)))).
Proof.
  split; [|split; [|split; [|split; [|split]]]].
  - intros u cp Hrun Hacc. rewrite run_git_command_settles, Hrun.
    rewrite settle_accepted by exact Hacc. reflexivity.
  - intros u e Hrun. rewrite run_git_command_settles, Hrun, settle_exception.
    destruct (Precise.host_print _ u); reflexivity.
  - intros u e Hrun. rewrite run_git_command_settles, Hrun. reflexivity.
  - intros x Hx.
    destruct (Precise.host_run cmd true None w) as [u r] eqn:Hrun.
    rewrite (@run_git_command_value _ _ cmd w u r Hrun) in Hx. cbn [fst snd].
    eapply settle_escapes. exact Hx.
  - apply execute_command_heading_refused.
  - intros Hhead. pose proof Hhead as Hhead'.
    unfold Precise.exec_heading in Hhead'.
    split; [|split; [|split]].
    + intros u cp Hrun Hacc.
      rewrite execute_command_settles, Hhead', Hrun.
      rewrite settle_accepted by exact Hacc. reflexivity.
    + intros u e Hrun.
      rewrite execute_command_settles, Hhead', Hrun, settle_exception.
      destruct (Precise.host_print _ u); reflexivity.
    + intros u e Hrun.
      rewrite execute_command_settles, Hhead', Hrun. reflexivity.
    + intros x Hx.
      destruct (Precise.host_run cmd true
                  (Some Precise.run_git_commands.repo_path) w) as [u r] eqn:Hrun.
      rewrite (@execute_command_value _ _ cmd w u r Hhead Hrun) in Hx.
      cbn [fst snd].
      eapply settle_escapes. exact Hx.
Qed.

End Containment.

(** ** What the returned boolean says *)

Section Flags.
Context {World : Type} `{Precise.Host World}.

(** C9, as amended.  What a runner returns, when it returns, is a single
    boolean.  [True] is returned only when the child process ran and exited
    with status 0 (and every line of the report was printed).  On a console
    that takes the lines of the report, [True] is returned exactly then,
    and [False] both for a status other than 0 and, the handler's line
    taken, for an [Exception] of [subprocess.run]: the value does not tell
    the two apart.  [False] is also what a child process that exited with
    status 0 gets when a print of the report raises an [Exception]: the
    prints are inside the [try].  For [execute_command] all this is once
    its heading is printed. *)
Theorem runners_return_success_flag (cmd : string) (w : World) :
  (Precise.value_of (Precise.git_operations.run_git_command cmd w) = inl true ->
   exists cp,
     snd (Precise.host_run cmd true None w) = inl cp /\
     returncode cp = 0%Z /\
     Precise.accepted (Precise.git_lines cmd cp)
       (fst (Precise.host_run cmd true None w))) /\
  (forall u cp,
      Precise.host_run cmd true None w = (u, inl cp) ->
      Precise.accepted (Precise.git_lines cmd cp) u ->
      Precise.value_of (Precise.git_operations.run_git_command cmd w) =
        inl (returncode cp =? 0)%Z) /\
  (forall u e,
      Precise.host_run cmd true None w = (u, inr (Precise.Exception e)) ->
      Precise.host_print (Precise.git_failure_line cmd e) u = None ->
      Precise.value_of (Precise.git_operations.run_git_command cmd w) =
        inl false) /\
  (forall u cp,
      Precise.host_run cmd true None w = (u, inl cp) ->
      (exists l, In l (Precise.git_lines cmd cp) /\
                 Precise.host_print l u <> None) ->
      (forall l e,
          In l (Precise.git_lines cmd cp) ->
          Precise.host_print l u <> Some (Precise.BaseException e)) ->
      (forall l e,
          In l (Precise.git_lines cmd cp) ->
          Precise.host_print l u = Some (Precise.Exception e) ->
          Precise.host_print (Precise.git_failure_line cmd e) u = None) ->
      Precise.value_of (Precise.git_operations.run_git_command cmd w) =
        inl false) /\
  (Precise.value_of (Precise.run_git_commands.execute_command cmd w) = inl true ->
   exists cp,
     snd (Precise.host_run cmd true
            (Some Precise.run_git_commands.repo_path) w) = inl cp /\
     returncode cp = 0%Z /\
     Precise.accepted (Precise.exec_lines cp)
       (fst (Precise.host_run cmd true
               (Some Precise.run_git_commands.repo_path) w))) /\
  (Precise.host_print (Precise.exec_heading cmd) w = None ->
   (forall u cp,
       Precise.host_run cmd true (Some Precise.run_git_commands.repo_path) w =
         (u, inl cp) ->
       Precise.accepted (Precise.exec_lines cp) u ->
       Precise.value_of (Precise.run_git_commands.execute_command cmd w) =
         inl (returncode cp =? 0)%Z) /\
   (forall u e,
       Precise.host_run cmd true (Some Precise.run_git_commands.repo_path) w =
         (u, inr (Precise.Exception e)) ->
       Precise.host_print (Precise.exec_failure_line e) u = None ->
       Precise.value_of (Precise.run_git_commands.execute_command cmd w) =
         inl false) /\
   (forall u cp,
       Precise.host_run cmd true (Some Precise.run_git_commands.repo_path) w =
         (u, inl cp) ->
       (exists l, In l (Precise.exec_lines cp) /\
                  Precise.host_print l u <> None) ->
       (forall l e,
           In l (Precise.exec_lines cp) ->
           Precise.host_print l u <> Some (Precise.BaseException e)) ->
       (forall l e,
           In l (Precise.exec_lines cp) ->
           Precise.host_print l u = Some (Precise.Exception e) ->
           Precise.host_print (Precise.exec_failure_line e) u = None) ->
       Precise.value_of (Precise.run_git_commands.execute_command cmd w) =
         inl false)).
Proof.
  split; [|split; [|split; [|split; [|split]]]].
  - intros Hv.
    destruct (Precise.host_run cmd true None w) as [u r] eqn:Hrun.
    rewrite (@run_git_command_value _ _ cmd w u r Hrun) in Hv.
    cbn [fst snd]. eapply settle_true. exact Hv.
  - intros u cp Hrun Hacc.
    rewrite (@run_git_command_value _ _ cmd w u (inl cp) Hrun).
    rewrite settle_accepted by exact Hacc. reflexivity.
  - intros u e Hrun Hline.
    rewrite (@run_git_command_value _ _ cmd w u _ Hrun).
    rewrite settle_exception, Hline. reflexivity.
  - intros u cp Hrun Hrefused Hkind Hhandler.
    rewrite (@run_git_command_value _ _ cmd w u (inl cp) Hrun).
    apply settle_refused; assumption.
  - intros Hv.
    assert (Hhead : Precise.host_print (Precise.exec_heading cmd) w = None).
    { rewrite execute_command_settles in Hv. unfold Precise.exec_heading.
      destruct (Precise.host_print (nl ++ ">>> Executing: " ++ cmd) w);
        [discriminate|reflexivity]. }
    destruct (Precise.host_run cmd true
                (Some Precise.run_git_commands.repo_path) w) as [u r] eqn:Hrun.
    rewrite (@execute_command_value _ _ cmd w u r Hhead Hrun) in Hv.
    cbn [fst snd]. eapply settle_true. exact Hv.
  - intros Hhead. split; [|split].
    + intros u cp Hrun Hacc.
      rewrite (@execute_command_value _ _ cmd w u (inl cp) Hhead Hrun).
      rewrite settle_accepted by exact Hacc. reflexivity.
    + intros u e Hrun Hline.
      rewrite (@execute_command_value _ _ cmd w u _ Hhead Hrun).
      rewrite settle_exception, Hline. reflexivity.
    + intros u cp Hrun Hrefused Hkind Hhandler.
      rewrite (@execute_command_value _ _ cmd w u (inl cp) Hhead Hrun).
      apply settle_refused; assumption.
Qed.

(** C3, as amended.  The value a runner returns for a child process that
    completed is no exit code but a boolean.  It is [True] only for the
    termination code 0, and on a console that takes the lines of the report
    it is the test of the code against 0: [True] for 0, [False] for every
    other code.  The code itself is in the value no further.
    [execute_command] prints it, as the last line of its report, [Return
    code: N]; [run_git_command] reports it nowhere: what it prints for a
    child process is the same whatever the termination code. *)
Theorem runners_return_zero_test (cmd : string) (w : World) :
  (Precise.value_of (Precise.git_operations.run_git_command cmd w) = inl true ->
   exists cp,
     snd (Precise.host_run cmd true None w) = inl cp /\ returncode cp = 0%Z) /\
  (forall u cp,
      Precise.host_run cmd true None w = (u, inl cp) ->
      Precise.accepted (Precise.git_lines cmd cp) u ->
      Precise.value_of (Precise.git_operations.run_git_command cmd w) =
        inl (returncode cp =? 0)%Z) /\
  (forall u cp w' code,
      Precise.host_run cmd true None w = (u, inl cp) ->
      Precise.host_run cmd true None w' =
        (u, inl (mkCompleted code (stdout cp) (stderr cp))) ->
      Precise.trace_of (Precise.git_operations.run_git_command cmd w') =
      Precise.trace_of (Precise.git_operations.run_git_command cmd w)) /\
  (Precise.value_of (Precise.run_git_commands.execute_command cmd w) = inl true ->
   exists cp,
     snd (Precise.host_run cmd true
            (Some Precise.run_git_commands.repo_path) w) = inl cp /\
     returncode cp = 0%Z) /\
  (forall u cp,
      Precise.host_print (Precise.exec_heading cmd) w = None ->
      Precise.host_run cmd true (Some Precise.run_git_commands.repo_path) w =
        (u, inl cp) ->
      Precise.accepted (Precise.exec_lines cp) u ->
      Precise.value_of (Precise.run_git_commands.execute_command cmd w) =
        inl (returncode cp =? 0)%Z /\
      last (printed
              (Precise.trace_of (Precise.run_git_commands.execute_command cmd w)))
        EmptyString =
        ("Return code: " ++ str_of_int (returncode cp))%string).
Proof.
  split; [|split; [|split; [|split]]].
  - intros Hv.
    destruct (Precise.host_run cmd true None w) as [u r] eqn:Hrun.
    rewrite (@run_git_command_value _ _ cmd w u r Hrun) in Hv.
    cbn [fst snd]. apply settle_true in Hv.
    destruct Hv as (cp & -> & Hz & _). exists cp. auto.
  - intros u cp Hrun Hacc.
    rewrite (@run_git_command_value _ _ cmd w u (inl cp) Hrun).
    rewrite settle_accepted by exact Hacc. reflexivity.
  - intros u cp w' code Hrun Hrun'.
    rewrite !run_git_command_settles, Hrun, Hrun'.
    pose proof (@settle_trace_lines _ _ (Precise.git_lines cmd)
                  (Precise.git_failure_line cmd) u
                  (mkCompleted code (stdout cp) (stderr cp)) cp eq_refl) as Heq.
    destruct (Precise.settle _ _ u (inl (mkCompleted _ _ _))) as [[t1 u1] v1].
    destruct (Precise.settle _ _ u (inl cp)) as [[t2 u2] v2].
    cbn [Precise.trace_of fst] in *. rewrite Heq. reflexivity.
  - intros Hv.
    assert (Hhead : Precise.host_print (Precise.exec_heading cmd) w = None).
    { rewrite execute_command_settles in Hv. unfold Precise.exec_heading.
      destruct (Precise.host_print (nl ++ ">>> Executing: " ++ cmd) w);
        [discriminate|reflexivity]. }
    destruct (Precise.host_run cmd true
                (Some Precise.run_git_commands.repo_path) w) as [u r] eqn:Hrun.
    rewrite (@execute_command_value _ _ cmd w u r Hhead Hrun) in Hv.
    cbn [fst snd]. apply settle_true in Hv.
    destruct Hv as (cp & -> & Hz & _). exists cp. auto.
  - intros u cp Hhead Hrun Hacc. split.
    + rewrite (@execute_command_value _ _ cmd w u (inl cp) Hhead Hrun).
      rewrite settle_accepted by exact Hacc. reflexivity.
    + rewrite (@execute_command_printed _ _ cmd w u (inl cp) Hhead Hrun).
      rewrite settle_accepted by exact Hacc.
      cbn [Precise.trace_of fst]. rewrite printed_map_EvPrint.
      unfold Precise.exec_lines.
      destruct (truthy (stdout cp)), (truthy (stderr cp)); reflexivity.
Qed.

End Flags.

(** ** What the runners print *)

Section Reports.
Context {World : Type} `{Precise.Host World}.



(** X10.  What [execute_command] prints tells the exit status of a child
    process that completed, once the console has taken the heading and the
    lines of the report: two such runs of a command that print the same
    lines ended with the same return code. *)
Theorem execute_command_log_tells_exit_code
  (cmd : string) (w w' u u' : World) (cp cp' : CompletedProcess) :
  Precise.host_print (Precise.exec_heading cmd) w = None ->
  Precise.host_print (Precise.exec_heading cmd) w' = None ->
  Precise.host_run cmd true (Some Precise.run_git_commands.repo_path) w =
    (u, inl cp) ->
  Precise.host_run cmd true (Some Precise.run_git_commands.repo_path) w' =
    (u', inl cp') ->
  Precise.accepted (Precise.exec_lines cp) u ->
  Precise.accepted (Precise.exec_lines cp') u' ->
  printed (Precise.trace_of (Precise.run_git_commands.execute_command cmd w)) =
  printed (Precise.trace_of (Precise.run_git_commands.execute_command cmd w')) ->
  returncode cp = returncode cp'.
Proof.
  intros Hhead Hhead' Hrun Hrun' Hacc Hacc' Hsame.
  rewrite (@execute_command_printed _ _ cmd w u (inl cp) Hhead Hrun) in Hsame.
  rewrite (@execute_command_printed _ _ cmd w' u' (inl cp') Hhead' Hrun') in Hsame.
  rewrite !settle_accepted in Hsame by assumption.
  cbn [Precise.trace_of fst] in Hsame. rewrite !printed_map_EvPrint in Hsame.
  injection Hsame as Hlines.
  assert (Hlast : forall c,
            last (Precise.exec_lines c) EmptyString =
              ("Return code: " ++ str_of_int (returncode c))%string).
  { intros c. unfold Precise.exec_lines.
    destruct (truthy (stdout c)), (truthy (stderr c)); reflexivity. }
  pose proof (Hlast cp) as Hcp. rewrite Hlines, Hlast in Hcp.
  injection Hcp as Hcode. apply str_of_int_inj. symmetry. exact Hcode.
Qed.

End Reports.

(** ** The runners on scripted hosts *)

Lemma any_text_accepted (lines : list string)
  (rs : list (CompletedProcess + Precise.raised)) :
  Precise.accepted lines (Precise.mkMachine Precise.AnyText rs).
Proof. intros l _. reflexivity. Qed.

(** C5 fails as stated.  The shell cannot be started and the console is
    closed: [run_git_command] catches the [OSError], but the print of its
    handler raises in turn, and that exception reaches the caller; nothing
    was logged and no failure indicator returned.  An interrupt during
    [subprocess.run] is not caught at all.  [execute_command] on the
    closed console raises before it has run anything. *)
Lemma failure_reaches_caller :
  Precise.git_operations.run_git_command "git status"
    (Precise.mkMachine Precise.Closed [Precise.no_shell]) =
    ([EvRun "git status" true None], Precise.mkMachine Precise.Closed [],
     inr (Precise.Exception "[Errno 32] Broken pipe")) /\
  Precise.git_operations.run_git_command "git status"
    (Precise.mkMachine Precise.AnyText [Precise.interrupt]) =
    ([EvRun "git status" true None], Precise.mkMachine Precise.AnyText [],
     inr (Precise.BaseException "KeyboardInterrupt")) /\
  Precise.run_git_commands.execute_command "git status"
    (Precise.mkMachine Precise.Closed [Precise.no_shell]) =
    ([], Precise.mkMachine Precise.Closed [Precise.no_shell],
     inr (Precise.Exception "[Errno 32] Broken pipe")).
Proof. repeat split. Qed.

Lemma runners_contain_failures_witness :
  Precise.git_operations.run_git_command "git status"
    (Precise.mkMachine Precise.AnyText [Precise.exits 128 "fatal"]) =
    ([EvRun "git status" true None; EvPrint "Command: git status";
      EvPrint "Output: fatal"; EvPrint (str_mul "-" 50)],
     Precise.mkMachine Precise.AnyText [], inl false) /\
  Precise.git_operations.run_git_command "git status"
    (Precise.mkMachine Precise.AnyText [Precise.no_shell]) =
    ([EvRun "git status" true None;
      EvPrint "Exception running 'git status': [Errno 2] No such file or directory: '/bin/sh'"],
     Precise.mkMachine Precise.AnyText [], inl false) /\
  Precise.git_operations.run_git_command "git status"
    (Precise.mkMachine Precise.Closed [Precise.no_shell]) =
    ([EvRun "git status" true None], Precise.mkMachine Precise.Closed [],
     inr (Precise.Exception "[Errno 32] Broken pipe")) /\
  Precise.git_operations.run_git_command "git status"
    (Precise.mkMachine Precise.AnyText [Precise.interrupt]) =
    ([EvRun "git status" true None], Precise.mkMachine Precise.AnyText [],
     inr (Precise.BaseException "KeyboardInterrupt")) /\
  Precise.run_git_commands.execute_command "git status"
    (Precise.mkMachine Precise.Closed []) =
    ([], Precise.mkMachine Precise.Closed [],
     inr (Precise.Exception "[Errno 32] Broken pipe")) /\
  Precise.run_git_commands.execute_command "git status"
    (Precise.mkMachine Precise.AnyText [Precise.exits 128 "fatal"]) =
    ([EvPrint (Precise.exec_heading "git status");
      EvRun "git status" true (Some Precise.run_git_commands.repo_path);
      EvPrint "fatal"; EvPrint "Return code: 128"],
     Precise.mkMachine Precise.AnyText [], inl false) /\
  Precise.run_git_commands.execute_command "git status"
    (Precise.mkMachine Precise.AnyText [Precise.no_shell]) =
    ([EvPrint (Precise.exec_heading "git status");
      EvRun "git status" true (Some Precise.run_git_commands.repo_path);
      EvPrint "Error executing command: [Errno 2] No such file or directory: '/bin/sh'"],
     Precise.mkMachine Precise.AnyText [], inl false).
Proof.
  destruct (runners_contain_failures "git status"
              (Precise.mkMachine Precise.AnyText [Precise.exits 128 "fatal"]))
    as (Hdone & _ & _ & _ & _ & Hexec).
  destruct (runners_contain_failures "git status"
              (Precise.mkMachine Precise.AnyText [Precise.no_shell]))
    as (_ & Hcaught & _ & _ & _ & Hexec').
  destruct (runners_contain_failures "git status"
              (Precise.mkMachine Precise.Closed [Precise.no_shell]))
    as (_ & Hhandler & _).
  destruct (runners_contain_failures "git status"
              (Precise.mkMachine Precise.AnyText [Precise.interrupt]))
    as (_ & _ & Hinterrupt & _).
  destruct (runners_contain_failures "git status"
              (Precise.mkMachine Precise.Closed []))
    as (_ & _ & _ & _ & Hheading & _).
  destruct (Hexec eq_refl) as (Hexec_done & _).
  destruct (Hexec' eq_refl) as (_ & Hexec_caught & _).
  split; [|split; [|split; [|split; [|split; [|split]]]]].
  - exact (Hdone _ _ eq_refl (any_text_accepted _ _)).
  - exact (Hcaught _ _ eq_refl).
  - exact (Hhandler _ _ eq_refl).
  - exact (Hinterrupt _ _ eq_refl).
  - exact (Hheading _ eq_refl).
  - exact (Hexec_done _ _ eq_refl (any_text_accepted _ _)).
  - exact (Hexec_caught _ _ eq_refl).
Defined.

(** C9 fails as stated.  On a console that takes 7-bit text only, a child
    process that ran and exited with status 0 but printed an accented
    letter makes [run_git_command] return [False]: the print of its output
    raises inside the [try].  And when [subprocess.run] is interrupted no
    boolean is returned at all. *)
Lemma exited_zero_yet_false :
  snd (Precise.host_run "git log --oneline -10" true None
         (Precise.mkMachine Precise.AsciiOnly
            [Precise.exits 0 Precise.accented])) =
    inl (mkCompleted 0 Precise.accented EmptyString) /\
  Precise.value_of
    (Precise.git_operations.run_git_command "git log --oneline -10"
       (Precise.mkMachine Precise.AsciiOnly
          [Precise.exits 0 Precise.accented])) = inl false /\
  Precise.value_of
    (Precise.run_git_commands.execute_command "git branch"
       (Precise.mkMachine Precise.AsciiOnly
          [Precise.exits 0 Precise.accented])) = inl false /\
  Precise.value_of
    (Precise.git_operations.run_git_command "git log --oneline -10"
       (Precise.mkMachine Precise.AnyText [Precise.interrupt])) =
    inr (Precise.BaseException "KeyboardInterrupt").
Proof. repeat split. Qed.

Lemma runners_return_success_flag_witness :
  Precise.value_of
    (Precise.git_operations.run_git_command "git status"
       (Precise.mkMachine Precise.AnyText [Precise.exits 0 "clean"])) =
    inl true /\
  Precise.value_of
    (Precise.git_operations.run_git_command "git status"
       (Precise.mkMachine Precise.AnyText [Precise.exits 128 "fatal"])) =
    inl false /\
  Precise.value_of
    (Precise.git_operations.run_git_command "git status"
       (Precise.mkMachine Precise.AnyText [Precise.no_shell])) = inl false /\
  Precise.value_of
    (Precise.git_operations.run_git_command "git status"
       (Precise.mkMachine Precise.AsciiOnly
          [Precise.exits 0 Precise.accented])) = inl false /\
  Precise.value_of
    (Precise.run_git_commands.execute_command "git status"
       (Precise.mkMachine Precise.AnyText [Precise.exits 128 "fatal"])) =
    inl false /\
  Precise.value_of
    (Precise.run_git_commands.execute_command "git status"
       (Precise.mkMachine Precise.AnyText [Precise.no_shell])) = inl false /\
  Precise.value_of
    (Precise.run_git_commands.execute_command "git status"
       (Precise.mkMachine Precise.AsciiOnly
          [Precise.exits 0 Precise.accented])) = inl false /\
  (exists cp,
     snd (Precise.host_run "git status" true None
            (Precise.mkMachine Precise.AnyText [Precise.exits 0 "clean"])) =
       inl cp /\
     returncode cp = 0%Z /\
     Precise.accepted (Precise.git_lines "git status" cp)
       (fst (Precise.host_run "git status" true None
               (Precise.mkMachine Precise.AnyText [Precise.exits 0 "clean"])))).
Proof.
  destruct (runners_return_success_flag "git status"
              (Precise.mkMachine Precise.AnyText [Precise.exits 0 "clean"]))
    as (Honly & Hzero & _).
  destruct (runners_return_success_flag "git status"
              (Precise.mkMachine Precise.AnyText [Precise.exits 128 "fatal"]))
    as (_ & Hcode & _ & _ & _ & Hexec).
  destruct (runners_return_success_flag "git status"
              (Precise.mkMachine Precise.AnyText [Precise.no_shell]))
    as (_ & _ & Hraised & _ & _ & Hexec').
  destruct (runners_return_success_flag "git status"
              (Precise.mkMachine Precise.AsciiOnly
                 [Precise.exits 0 Precise.accented]))
    as (_ & _ & _ & Hrefused & _ & Hexec'').
  destruct (Hexec eq_refl) as (Hexec_code & _).
  destruct (Hexec' eq_refl) as (_ & Hexec_raised & _).
  destruct (Hexec'' eq_refl) as (_ & _ & Hexec_refused).
  assert (Hline : exists l,
            In l (Precise.git_lines "git status"
                    (mkCompleted 0 Precise.accented EmptyString)) /\
            Precise.host_print l (Precise.mkMachine Precise.AsciiOnly []) <> None).
  { exists ("Output: " ++ Precise.accented)%string.
    split; [right; left; reflexivity|discriminate]. }
  assert (Hline' : exists l,
            In l (Precise.exec_lines
                    (mkCompleted 0 Precise.accented EmptyString)) /\
            Precise.host_print l (Precise.mkMachine Precise.AsciiOnly []) <> None).
  { exists Precise.accented. split; [left; reflexivity|discriminate]. }
  assert (Hkind : forall l e,
            Precise.host_print l (Precise.mkMachine Precise.AsciiOnly []) <>
              Some (Precise.BaseException e)).
  { intros l e. cbn. destruct (Precise.is_ascii l); discriminate. }
  assert (Hgit : forall l e,
            Precise.host_print l (Precise.mkMachine Precise.AsciiOnly []) =
              Some (Precise.Exception e) ->
            Precise.host_print (Precise.git_failure_line "git status" e)
              (Precise.mkMachine Precise.AsciiOnly []) = None).
  { intros l e. cbn. destruct (Precise.is_ascii l); [discriminate|].
    intros [= <-]. reflexivity. }
  assert (Hexec_line : forall l e,
            Precise.host_print l (Precise.mkMachine Precise.AsciiOnly []) =
              Some (Precise.Exception e) ->
            Precise.host_print (Precise.exec_failure_line e)
              (Precise.mkMachine Precise.AsciiOnly []) = None).
  { intros l e. cbn. destruct (Precise.is_ascii l); [discriminate|].
    intros [= <-]. reflexivity. }
  split; [|split; [|split; [|split; [|split; [|split; [|split]]]]]].
  - exact (Hzero _ _ eq_refl (any_text_accepted _ _)).
  - exact (Hcode _ _ eq_refl (any_text_accepted _ _)).
  - exact (Hraised _ _ eq_refl eq_refl).
  - exact (Hrefused _ _ eq_refl Hline (fun l e _ => Hkind l e)
             (fun l e _ => Hgit l e)).
  - exact (Hexec_code _ _ eq_refl (any_text_accepted _ _)).
  - exact (Hexec_raised _ _ eq_refl eq_refl).
  - exact (Hexec_refused _ _ eq_refl Hline' (fun l e _ => Hkind l e)
             (fun l e _ => Hexec_line l e)).
  - apply Honly. exact (Hzero _ _ eq_refl (any_text_accepted _ _)).
Defined.

(** C3 fails as stated.  Neither runner returns the exit code: a child
    process that exits with status 1 and one that exits with status 2 both
    make it return [False], so no reading of the returned value gives the
    code. *)
Lemma exit_code_not_returned :
  Precise.value_of
    (Precise.git_operations.run_git_command "git status"
       (Precise.mkMachine Precise.AnyText [Precise.exits 1 EmptyString])) =
  Precise.value_of
    (Precise.git_operations.run_git_command "git status"
       (Precise.mkMachine Precise.AnyText [Precise.exits 2 EmptyString])) /\
  ~ Precise.returns_exit_code
      (World := Precise.machine) Precise.git_operations.run_git_command None /\
  ~ Precise.returns_exit_code
      (World := Precise.machine) Precise.run_git_commands.execute_command
      (Some Precise.run_git_commands.repo_path).
Proof.
  split; [reflexivity|]. split.
  - intros [exit_code Hcode].
    destruct (Hcode "git status"
                (Precise.mkMachine Precise.AnyText [Precise.exits 1 EmptyString])
                _ eq_refl) as (b1 & Hb1 & H1).
    destruct (Hcode "git status"
                (Precise.mkMachine Precise.AnyText [Precise.exits 2 EmptyString])
                _ eq_refl) as (b2 & Hb2 & H2).
    injection Hb1 as <-. injection Hb2 as <-.
    cbn in H1, H2. rewrite H1 in H2. discriminate.
  - intros [exit_code Hcode].
    destruct (Hcode "git status"
                (Precise.mkMachine Precise.AnyText [Precise.exits 1 EmptyString])
                _ eq_refl) as (b1 & Hb1 & H1).
    destruct (Hcode "git status"
                (Precise.mkMachine Precise.AnyText [Precise.exits 2 EmptyString])
                _ eq_refl) as (b2 & Hb2 & H2).
    injection Hb1 as <-. injection Hb2 as <-.
    cbn in H1, H2. rewrite H1 in H2. discriminate.
Qed.

Lemma runners_return_zero_test_witness :
  Precise.value_of
    (Precise.git_operations.run_git_command "git status"
       (Precise.mkMachine Precise.AnyText [Precise.exits 0 "clean"])) =
    inl true /\
  Precise.value_of
    (Precise.git_operations.run_git_command "git status"
       (Precise.mkMachine Precise.AnyText [Precise.exits 3 "clean"])) =
    inl false /\
  Precise.trace_of
    (Precise.git_operations.run_git_command "git status"
       (Precise.mkMachine Precise.AnyText [Precise.exits 3 "clean"])) =
  Precise.trace_of
    (Precise.git_operations.run_git_command "git status"
       (Precise.mkMachine Precise.AnyText [Precise.exits 0 "clean"])) /\
  (exists cp,
     snd (Precise.host_run "git status" true None
            (Precise.mkMachine Precise.AnyText [Precise.exits 0 "clean"])) =
       inl cp /\
     returncode cp = 0%Z) /\
  Precise.value_of
    (Precise.run_git_commands.execute_command "git status"
       (Precise.mkMachine Precise.AnyText [Precise.exits 3 "clean"])) =
    inl false /\
  last (printed
          (Precise.trace_of
             (Precise.run_git_commands.execute_command "git status"
                (Precise.mkMachine Precise.AnyText [Precise.exits 3 "clean"]))))
    EmptyString = "Return code: 3".
Proof.
  destruct (runners_return_zero_test "git status"
              (Precise.mkMachine Precise.AnyText [Precise.exits 0 "clean"]))
    as (Honly & Hzero & Hsilent & _).
  destruct (runners_return_zero_test "git status"
              (Precise.mkMachine Precise.AnyText [Precise.exits 3 "clean"]))
    as (_ & Hcode & _ & _ & Hexec).
  pose proof (Hzero _ _ eq_refl (any_text_accepted _ _)) as Htrue.
  destruct (Hexec _ _ eq_refl eq_refl (any_text_accepted _ _))
    as (Hexec_value & Hexec_line).
  split; [|split; [|split; [|split; [|split]]]].
  - exact Htrue.
  - exact (Hcode _ _ eq_refl (any_text_accepted _ _)).
  - exact (Hsilent _ _
             (Precise.mkMachine Precise.AnyText [Precise.exits 3 "clean"]) 3%Z
             eq_refl eq_refl).
  - exact (Honly Htrue).
  - exact Hexec_value.
  - exact Hexec_line.
Defined.



Lemma execute_command_log_tells_exit_code_witness :
  printed
    (Precise.trace_of
       (Precise.run_git_commands.execute_command "git branch"
          (Precise.mkMachine Precise.AnyText [Precise.exits 1 "fatal"]))) =
  printed
    (Precise.trace_of
       (Precise.run_git_commands.execute_command "git branch"
          (Precise.mkMachine Precise.AsciiOnly
             [Precise.exits 1 "fatal"; Precise.exits 0 EmptyString]))) /\
  returncode (mkCompleted 1 "fatal" EmptyString) =
  returncode (mkCompleted 1 "fatal" EmptyString).
Proof.
  split; [reflexivity|].
  apply (@execute_command_log_tells_exit_code _ _ "git branch"
           (Precise.mkMachine Precise.AnyText [Precise.exits 1 "fatal"])
           (Precise.mkMachine Precise.AsciiOnly
              [Precise.exits 1 "fatal"; Precise.exits 0 EmptyString])
           (Precise.mkMachine Precise.AnyText [])
           (Precise.mkMachine Precise.AsciiOnly [Precise.exits 0 EmptyString])).
  - reflexivity.
  - reflexivity.
  - reflexivity.
  - reflexivity.
  - apply any_text_accepted.
  - intros l [<-|[<-|[]]]; reflexivity.
  - reflexivity.
Defined.

(** ** The two levels agree

    On a console that takes every line and with [Exception]s only, the
    runners embedded with prints that can raise do what the runners
    embedded first do. *)

Section Levels.
Context {World : Type} `{System World}.

Lemma run_git_command_levels (cmd : string) (w : World) :
  @Precise.git_operations.run_git_command World Precise.of_system cmd w =
    Precise.lift (git_operations.run_git_command cmd w).
Proof.
  rewrite run_git_command_settles. cbn [Precise.host_run Precise.of_system].
  destruct (subprocess_run cmd true None w) as [u [cp|e]] eqn:Hrun.
  - rewrite (run_git_command_completed _ _ Hrun).
    rewrite settle_accepted by (intros l _; reflexivity).
    unfold Precise.git_lines, git_report.
    destruct (truthy (stdout cp)), (truthy (stderr cp)); reflexivity.
  - rewrite (run_git_command_raised _ _ Hrun). reflexivity.
Qed.

Lemma execute_command_levels (cmd : string) (w : World) :
  @Precise.run_git_commands.execute_command World Precise.of_system cmd w =
    Precise.lift (run_git_commands.execute_command cmd w).
Proof.
  rewrite execute_command_settles.
  cbn [Precise.host_run Precise.host_print Precise.of_system].
  change Precise.run_git_commands.repo_path with run_git_commands.repo_path.
  destruct (subprocess_run cmd true (Some run_git_commands.repo_path) w)
    as [u [cp|e]] eqn:Hrun.
  - rewrite (execute_command_completed _ _ Hrun).
    rewrite settle_accepted by (intros l _; reflexivity).
    unfold Precise.exec_lines, exec_report.
    destruct (truthy (stdout cp)), (truthy (stderr cp)); reflexivity.
  - rewrite (execute_command_raised _ _ Hrun). reflexivity.
Qed.

End Levels.

(** * [git_operations.py], step by step *)

(** ** Cutting a script in two *)

Section Cutting.
Context {World : Type}.

Lemma bind_assoc {A B C} (m : Py World A) (f : A -> Py World B)
  (g : B -> Py World C) (w : World) :
  bind (bind m f) g w = bind m (fun a => bind (f a) g) w.
Proof.
  unfold bind. destruct (m w) as [[t1 w1] [a|e]]; [|reflexivity].
  destruct (f a w1) as [[t2 w2] [b|e]]; [|reflexivity].
  destruct (g b w2) as [[t3 w3] r]. rewrite app_assoc. reflexivity.
Qed.

Lemma bind_ext {A B} (m : Py World A) (f g : A -> Py World B) (w : World) :
  (forall a u, f a u = g a u) -> bind m f w = bind m g w.
Proof.
  intros Hfg. unfold bind. destruct (m w) as [[t1 w1] [a|e]]; [|reflexivity].
  rewrite Hfg. reflexivity.
Qed.

Lemma returns_at {A} (m m' : Py World A) w Q :
  m w = m' w -> returns m' w Q -> returns m w Q.
Proof. intros Heq Hm. unfold returns. rewrite Heq. exact Hm. Qed.

End Cutting.

(** Brings a sequence of sequences into the shape of another one. *)
Ltac reassociate :=
  repeat first
    [ reflexivity
    | rewrite bind_assoc; cbv beta
    | apply bind_ext; intros ? ? ].

Section Cuts.
Context {World : Type} `{System World}.

Lemma body_before_commit_3 (w : World) :
  git_operations.body w =
    (before_commit_3 ;;
     git_operations.commit_3 ;;
     git_operations.commit_4 ;;
     git_operations.commit_5 ;;
     git_operations.commit_6 ;;
     git_operations.commit_config ;;
     git_operations.final_status) w.
Proof.
  unfold git_operations.body, before_commit_3, before_commit_1.
  symmetry. reassociate.
Qed.

Lemma body_before_commit_config (w : World) :
  git_operations.body w =
    (before_commit_config ;;
     git_operations.commit_config ;;
     git_operations.final_status) w.
Proof.
  unfold git_operations.body, before_commit_config, before_commit_5,
    before_commit_4, before_commit_3, before_commit_1.
  symmetry. reassociate.
Qed.

End Cuts.

(** ** What each step does, and the state it leaves *)

Section StepByStep.
Context {World : Type} `{System World}.

Lemma check_status_returns (w : World) :
  returns git_operations.check_status w
    (fun t w' _ =>
       w' = fst (subprocess_run "git status" true None w) /\
       commands t = ["git status"] /\ checks t = [] /\ writes t = []).
Proof.
  unfold git_operations.check_status.
  do 2 run_call. run_call.
  apply returns_run_git_command. intros t Hc Hw Hk.
  run_call. read_trace. auto.
Qed.

Lemma create_branch_returns (w : World) :
  returns git_operations.create_branch w
    (fun t _ _ =>
       commands t =
         "git checkout -b fix/automation-framework-compatibility"
           :: (if success
                    (snd (subprocess_run
                            "git checkout -b fix/automation-framework-compatibility"
                            true None w))
               then []
               else ["git checkout fix/automation-framework-compatibility"]) /\
       checks t = [] /\ writes t = []).
Proof.
  unfold git_operations.create_branch.
  do 2 run_call. run_call.
  apply returns_run_git_command. intros t Hc Hw Hk.
  destruct (success _).
  - run_call. read_trace. auto.
  - do 2 run_call. run_call.
    apply returns_run_git_command. intros t2 Hc2 Hw2 Hk2.
    run_call. read_trace. auto.
Qed.

Lemma before_commit_1_returns (w : World) :
  returns before_commit_1 w
    (fun t _ _ =>
       commands t =
         "git status"
           :: "git checkout -b fix/automation-framework-compatibility"
           :: (if branch_created w then []
               else ["git checkout fix/automation-framework-compatibility"]) /\
       checks t = [] /\ writes t = []).
Proof.
  unfold before_commit_1. run_call.
  eapply returns_mono; [apply check_status_returns|].
  intros ts ws _ (-> & Hcs & Hks & Hws).
  eapply returns_mono; [apply create_branch_returns|].
  intros tb wb _ (Hcb & Hkb & Hwb). unfold branch_created.
  read_trace. auto.
Qed.

(** The shape of steps 1, 2, 4, 5 and 6. *)
Lemma guarded_step_returns (p title add msg : string) (w : World) :
  returns
    (present <- os.path.exists_ p ;;
     when present
       (print title ;;
        git_operations.run_git_command add ;;
        git_operations.run_git_command (git_operations.git_commit msg) ;;
        ret tt)) w
    (fun t w' _ =>
       checks t = [p] /\ writes t = [] /\
       commands t =
         (if os_path_exists p w then [add; git_operations.git_commit msg]
          else []) /\
       (os_path_exists p w = false -> w' = w)).
Proof.
  do 2 run_call.
  destruct (os_path_exists p w); cbn [when].
  - do 2 run_call. run_call.
    apply returns_run_git_command. intros t1 Hc1 Hw1 Hk1. run_call.
    apply returns_run_git_command. intros t2 Hc2 Hw2 Hk2.
    run_call. read_trace. repeat split. discriminate.
  - run_call. auto.
Qed.

Lemma commit_3_returns (w : World) :
  profile_dir_writable w ->
  returns git_operations.commit_3 w
    (fun t w' _ =>
       checks t = [".bash_profile.dir"] /\
       writes t =
         (if os_path_exists ".bash_profile.dir" w then []
          else profile_dir_writes) /\
       commands t =
         (if os_path_exists ".bash_profile.dir" w then []
          else ["git add .bash_profile.dir/";
                git_operations.git_commit git_operations.commit_msg_3])).
Proof.
  intros Hwritable. unfold git_operations.commit_3. do 2 run_call.
  unfold profile_dir_writable in Hwritable.
  destruct (os_path_exists ".bash_profile.dir" w); cbn [negb when].
  - run_call. auto.
  - destruct (Hwritable eq_refl) as (u1 & u2 & Hmk & Hwr).
    do 2 run_call. run_call.
    eapply returns_makedirs; [exact Hmk|]. run_call.
    eapply returns_write_file; [exact Hwr|]. run_call.
    apply returns_run_git_command. intros t1 Hc1 Hw1 Hk1. run_call.
    apply returns_run_git_command. intros t2 Hc2 Hw2 Hk2.
    run_call. read_trace. auto.
Qed.

Lemma commit_config_returns (w : World) :
  diff_returns w ->
  returns git_operations.commit_config w
    (fun t _ _ =>
       checks t = git_operations.config_files /\ writes t = [] /\
       (filter (fun g => os_path_exists g w) git_operations.config_files = [] ->
        commands t = [])).
Proof.
  intros Hdiff. unfold git_operations.commit_config.
  do 2 run_call. run_call.
  eexists _, _, _. split; [apply existing_run|].
  assert (Hchecks : checks (map EvExists git_operations.config_files) =
                    git_operations.config_files) by reflexivity.
  assert (Hwrites : writes (map EvExists git_operations.config_files) = [])
    by reflexivity.
  assert (Hcommands : commands (map EvExists git_operations.config_files) = [])
    by reflexivity.
  destruct (filter _ _) as [|f fs] eqn:Hfiles.
  - run_call. read_trace. rewrite ?app_nil_r. auto.
  - run_call. apply returns_run_git_command. intros t1 Hc1 Hw1 Hk1.
    run_call. destruct (Hdiff f fs Hfiles) as (u' & cp & Hrun).
    eapply returns_run; [exact Hrun|]. cbv beta.
    apply returns_when.
    + intros _. run_call.
      apply returns_run_git_command. intros t2 Hc2 Hw2 Hk2. run_call.
      read_trace. rewrite ?app_nil_r. repeat split. discriminate.
    + intros _. read_trace. rewrite ?app_nil_r. repeat split. discriminate.
Qed.

Lemma final_status_returns (w : World) :
  returns git_operations.final_status w
    (fun t _ _ =>
       commands t = ["git status"; "git log --oneline -10"] /\
       checks t = [] /\ writes t = [] /\
       exists before, printed t = (before ++ closing_lines)%list).
Proof.
  unfold git_operations.final_status.
  do 2 run_call. run_call.
  apply returns_run_git_command. intros t1 Hc1 Hw1 Hk1. run_call.
  apply returns_run_git_command. intros t2 Hc2 Hw2 Hk2.
  do 2 run_call. do 2 run_call. run_call.
  split; [read_trace; reflexivity|].
  split; [read_trace; reflexivity|].
  split; [read_trace; reflexivity|].
  exists (printed
            ([EvPrint (nl ++ "=== Final git status ===")] ++ t1 ++ t2)).
  rewrite !printed_app. rewrite <- !app_assoc. reflexivity.
Qed.

(** The lines before step 3 always come to their end: they run commands
    through [run_git_command] only, and test the paths of steps 1 and 2. *)
Lemma before_commit_3_returns (w : World) :
  returns before_commit_3 w
    (fun t _ _ =>
       checks t = [".automation/framework/core.sh"; ".automation/auto"] /\
       writes t = []).
Proof.
  unfold before_commit_3. run_call.
  eapply returns_mono; [apply before_commit_1_returns|].
  intros t0 w0 _ (_ & Hk0 & Hw0). run_call.
  eapply returns_mono; [apply guarded_step_returns|].
  intros t1 w1 _ (Hk1 & Hw1 & _).
  eapply returns_mono; [apply guarded_step_returns|].
  intros t2 w2 _ (Hk2 & Hw2 & _).
  read_trace. auto.
Qed.

(** With step 3 able to write, so do the lines before the config step. *)
Lemma before_commit_config_returns (w : World) :
  profile_dir_writable (world_of (before_commit_3 w)) ->
  returns before_commit_config w
    (fun t _ _ =>
       checks t = map fst (git_operations.commit_steps (World := World))).
Proof.
  intros Hwritable.
  unfold before_commit_config, before_commit_5, before_commit_4.
  do 3 run_call.
  eapply returns_mono; [apply returns_self, before_commit_3_returns|].
  intros t3 w3 [] (Heq & Hk3 & _).
  rewrite Heq in Hwritable. cbn [world_of fst snd] in Hwritable.
  eapply returns_mono; [apply (commit_3_returns Hwritable)|].
  intros tc3 w4 _ (Hkc3 & _).
  eapply returns_mono; [apply guarded_step_returns|].
  intros tc4 w5 _ (Hkc4 & _). run_call.
  eapply returns_mono; [apply guarded_step_returns|].
  intros tc5 w6 _ (Hkc5 & _).
  eapply returns_mono; [apply guarded_step_returns|].
  intros tc6 w7 _ (Hkc6 & _).
  read_trace. reflexivity.
Qed.

End StepByStep.

(** ** Runs that reach the end, and what they write *)

Section WholeRuns.
Context {World : Type} `{System World}.

(** C6, as amended.  Three things end [git_operations.py] early, and
    nothing else does.  Let the change into the repository directory
    succeed; let the two writing calls of step 3 return, if the step finds
    [.bash_profile.dir] missing in the state it starts in; and let the one
    direct [subprocess.run] call, [git diff --cached --quiet], return, if
    the config step finds a config file and so makes it.  Then whatever the
    commands run through [run_git_command] do, non-zero exit status or
    failure to start alike, and at whatever step, the run reaches its end:
    every step makes its test, in order; no exception escapes; and the
    trace ends with the final status block, [git status] and
    [git log --oneline -10] run and the closing lines printed.  (Prints are
    taken to succeed, and what is raised to be an [Exception].) *)
Theorem git_operations_runs_to_completion (w w1 : World) :
  os_chdir git_operations.repo_path w = (w1, inl tt) ->
  profile_dir_writable (world_of (before_commit_3 w1)) ->
  diff_returns (world_of (before_commit_config w1)) ->
  returns git_operations.main w
    (fun t w' _ =>
       checks t = git_operations.gated_paths (World := World) /\
       ends_with git_operations.final_status t w' /\
       (exists t0,
          commands t = (t0 ++ ["git status"; "git log --oneline -10"])%list) /\
       (exists before, printed t = (before ++ closing_lines)%list)).
Proof.
  intros Hcd Hwritable Hdiff. unfold git_operations.main. run_call.
  eapply returns_chdir; [exact Hcd|]. cbv beta.
  eapply returns_at; [apply body_before_commit_config|]. run_call.
  eapply returns_mono;
    [apply returns_self, before_commit_config_returns, Hwritable|].
  intros tp wp [] (Heq & Hkp).
  rewrite Heq in Hdiff. cbn [world_of fst snd] in Hdiff.
  run_call. eapply returns_mono; [apply (commit_config_returns Hdiff)|].
  intros tc wc _ (Hkc & _).
  eapply returns_mono; [apply returns_self, final_status_returns|].
  intros tf wf a (Hfinal & Hcf & Hkf & _ & before & Hpf).
  split; [|split; [|split]].
  - read_trace. rewrite app_nil_r. reflexivity.
  - eexists _, wc, tf, a. split; [exact Hfinal|].
    rewrite !app_assoc. reflexivity.
  - rewrite !app_assoc, commands_app, Hcf. eexists. reflexivity.
  - rewrite !app_assoc, printed_app, Hpf, app_assoc. eexists. reflexivity.
Qed.

Lemma no_writes_after_commit_3 :
  no_writes
    (git_operations.commit_4 ;;
     git_operations.commit_5 ;;
     git_operations.commit_6 ;;
     git_operations.commit_config ;;
     git_operations.final_status).
Proof.
  apply no_writes_bind; [apply no_writes_commit_4|]. intros _.
  apply no_writes_bind; [apply no_writes_commit_5|]. intros _.
  apply no_writes_bind; [apply no_writes_commit_6|]. intros _.
  apply no_writes_bind; [apply no_writes_commit_config|]. intros _.
  apply no_writes_final_status.
Qed.

(** The writing calls of step 3, by what [os.makedirs] does. *)
Lemma writes_commit_3_missing (w : World) :
  os_path_exists ".bash_profile.dir" w = false ->
  writes (trace_of (git_operations.commit_3 w)) =
    match snd (os_makedirs ".bash_profile.dir" true w) with
    | inl _ => profile_dir_writes
    | inr _ => [EvMakedirs ".bash_profile.dir" true]
    end.
Proof.
  intros Hp. unfold git_operations.commit_3.
  rewrite writes_bind.
  cbn [os.path.exists_ trace_of value_of world_of fst snd writes app].
  rewrite Hp. cbn [negb when].
  rewrite writes_bind. cbn [print trace_of value_of world_of fst snd writes app].
  rewrite writes_bind. unfold os.makedirs at 1 2 3.
  destruct (os_makedirs ".bash_profile.dir" true w) as [w1 [[]|e]];
    cbn [trace_of value_of world_of fst snd writes app]; [|reflexivity].
  rewrite writes_bind. unfold write_file at 1 2 3.
  destruct (open_write ".bash_profile.dir/.gitkeep" EmptyString w1)
    as [w2 [[]|e]];
    cbn [trace_of value_of world_of fst snd writes app]; [|reflexivity].
  assert (Hrest : no_writes
            (git_operations.run_git_command "git add .bash_profile.dir/" ;;
             git_operations.run_git_command
               (git_operations.git_commit git_operations.commit_msg_3) ;;
             ret tt)) by no_writes_steps.
  rewrite (Hrest w2). reflexivity.
Qed.

(** C7, as amended.  [run_git_commands.py] makes no call that creates or
    writes a path.  [git_operations.py] makes such calls in step 3 only:
    the writing calls of a whole run are those of step 3 in the state the
    run reaches it in, and there are none when the change into the
    repository directory raises.  Step 3 makes none when it finds
    [.bash_profile.dir] in place.  When it finds it missing it calls
    [os.makedirs] on [.bash_profile.dir] and, if that returns, opens
    [.bash_profile.dir/.gitkeep] for writing and writes the empty string;
    if [os.makedirs] raises, that call is the only one.  Neither script
    deletes anything: there is no such call in them.  (Prints are taken to
    succeed.) *)
Theorem scripts_write_only_profile_dir (w : World) :
  writes (trace_of (run_git_commands.main w)) = [] /\
  (forall w1 e,
      os_chdir git_operations.repo_path w = (w1, inr e) ->
      writes (trace_of (git_operations.main w)) = []) /\
  (forall w1,
      os_chdir git_operations.repo_path w = (w1, inl tt) ->
      writes (trace_of (git_operations.main w)) =
        writes (trace_of (git_operations.commit_3
                            (world_of (before_commit_3 w1))))) /\
  (os_path_exists ".bash_profile.dir" w = true ->
   writes (trace_of (git_operations.commit_3 w)) = []) /\
  (os_path_exists ".bash_profile.dir" w = false ->
   writes (trace_of (git_operations.commit_3 w)) =
     match snd (os_makedirs ".bash_profile.dir" true w) with
     | inl _ => profile_dir_writes
     | inr _ => [EvMakedirs ".bash_profile.dir" true]
     end).
Proof.
  split; [apply no_writes_run_git_commands_main|].
  split; [|split; [|split]].
  - intros w1 e Hcd. unfold git_operations.main.
    erewrite bind_raised
      by (unfold os.chdir; rewrite Hcd; reflexivity).
    reflexivity.
  - intros w1 Hcd. unfold git_operations.main.
    erewrite bind_returned
      by (unfold os.chdir; rewrite Hcd; reflexivity).
    cbn [trace_of fst app writes].
    change (fst (fst (git_operations.body w1)))
      with (trace_of (git_operations.body w1)).
    rewrite body_before_commit_3, writes_bind.
    destruct (before_commit_3_returns w1) as (t3 & w3 & [] & Heq & _ & Hw3).
    rewrite Heq. cbn [trace_of value_of world_of fst snd]. rewrite Hw3.
    cbn [app]. rewrite writes_bind.
    destruct (value_of (git_operations.commit_3 w3)) as [[]|e].
    + rewrite no_writes_after_commit_3. apply app_nil_r.
    + apply app_nil_r.
  - intros Hp. rewrite (commit_3_skipped _ Hp). reflexivity.
  - apply writes_commit_3_missing.
Qed.

End WholeRuns.

(** ** The run on a repository that holds [initialize.sh] only *)

Section OnlyInitialize.
Context {World : Type} `{System World}.

Lemma body_before_commit_5 (w : World) :
  git_operations.body w =
    (before_commit_5 ;;
     git_operations.commit_5 ;;
     git_operations.commit_6 ;;
     git_operations.commit_config ;;
     git_operations.final_status) w.
Proof.
  unfold git_operations.body, before_commit_5, before_commit_4,
    before_commit_3, before_commit_1.
  symmetry. reassociate.
Qed.

(** C1, as amended.  Start [git_operations.py] where, of the paths it
    tests, only [initialize.sh] exists, and let the run be one in which the
    status check and the branch commands leave the tested paths as they
    are, the two writing calls of step 3 return in the state the step
    starts in, and the commands of steps 3 and 4 leave the tested paths
    other than [.bash_profile.dir] as they are.  Then the script checks the status and attempts the branch
    creation, falling back to a checkout exactly when that fails; it skips
    steps 1, 2, 5 and 6 and the config step; but it runs step 3, because
    [.bash_profile.dir] is missing: it creates the directory and its
    [.gitkeep], stages and commits them.  It then stages and commits
    [initialize.sh] and ends with the final status and log.  Two
    [git commit] commands are issued, not one.  (Prints are taken to
    succeed, and what is raised to be an [Exception].) *)
Theorem only_initialize_sh_run (w w1 : World) :
  os_chdir git_operations.repo_path w = (w1, inl tt) ->
  only_initialize_sh w1 ->
  same_tested_paths w1 (world_of (before_commit_1 w1)) ->
  profile_dir_writable (world_of (before_commit_3 w1)) ->
  keeps_tested_paths w1 (world_of (before_commit_4 w1)) ->
  keeps_tested_paths w1 (world_of (before_commit_5 w1)) ->
  returns git_operations.main w
    (fun t w' _ =>
       commands t =
         ("git status"
            :: "git checkout -b fix/automation-framework-compatibility"
            :: (if branch_created w1 then []
                else ["git checkout fix/automation-framework-compatibility"])
            ++ ["git add .bash_profile.dir/";
                git_operations.git_commit git_operations.commit_msg_3;
                "git add initialize.sh";
                git_operations.git_commit git_operations.commit_msg_4;
                "git status";
                "git log --oneline -10"])%list /\
       checks t = git_operations.gated_paths (World := World) /\
       length (commit_commands t) = 2 /\
       writes t = profile_dir_writes /\
       ends_with git_operations.final_status t w' /\
       (exists before, printed t = (before ++ closing_lines)%list)).
Proof.
  intros Hcd Hinit Hsame Hwritable Hkeep4 Hkeep5.
  (* up to step 1 *)
  destruct (returns_self (before_commit_1_returns w1))
    as (t0 & s & [] & HB1 & _ & Hc0 & Hk0 & Hw0).
  rewrite HB1 in Hsame. cbn [world_of fst snd] in Hsame.
  assert (Hs : forall p, In p (git_operations.gated_paths (World := World)) ->
                         os_path_exists p s = String.eqb p "initialize.sh").
  { intros p Hp. rewrite (Hsame p Hp). apply Hinit, Hp. }
  (* steps 1 and 2 are skipped *)
  assert (HB3 : before_commit_3 w1 =
                ((t0 ++ [EvExists ".automation/framework/core.sh"] ++
                  [EvExists ".automation/auto"])%list, s, inl tt)).
  { unfold before_commit_3. erewrite bind_returned by exact HB1.
    erewrite bind_returned
      by (apply guarded_step_skipped; rewrite Hs by (simpl; auto 12);
          reflexivity).
    unfold git_operations.commit_2.
    rewrite guarded_step_skipped
      by (rewrite Hs by (simpl; auto 12); reflexivity).
    reflexivity. }
  rewrite HB3 in Hwritable. cbn [world_of fst snd] in Hwritable.
  (* step 3 runs *)
  assert (Hdir : os_path_exists ".bash_profile.dir" s = false)
    by (rewrite Hs by (simpl; auto 12); reflexivity).
  destruct (returns_self (commit_3_returns Hwritable))
    as (t3 & s4 & [] & H3 & _ & Hk3 & Hw3 & Hc3).
  rewrite Hdir in Hw3, Hc3.
  assert (HB4 : before_commit_4 w1 =
                (((t0 ++ [EvExists ".automation/framework/core.sh"] ++
                   [EvExists ".automation/auto"]) ++ t3)%list, s4, inl tt)).
  { unfold before_commit_4. erewrite bind_returned by exact HB3.
    rewrite H3. reflexivity. }
  rewrite HB4 in Hkeep4. cbn [world_of fst snd] in Hkeep4.
  (* step 4 runs *)
  assert (Hinit4 : os_path_exists "initialize.sh" s4 = true).
  { rewrite Hkeep4 by first [discriminate|simpl; auto 12].
    rewrite Hinit by (simpl; auto 12). reflexivity. }
  destruct (returns_self
              (guarded_step_returns "initialize.sh"
                 (nl ++ "=== Commit 4: Add yes-to-all functionality ===")
                 "git add initialize.sh" git_operations.commit_msg_4 s4))
    as (t4 & s5 & [] & H4 & _ & Hk4 & Hw4 & Hc4 & _).
  rewrite Hinit4 in Hc4.
  assert (HB5 : before_commit_5 w1 =
                ((((t0 ++ [EvExists ".automation/framework/core.sh"] ++
                    [EvExists ".automation/auto"]) ++ t3) ++ t4)%list,
                 s5, inl tt)).
  { unfold before_commit_5. erewrite bind_returned by exact HB4.
    unfold git_operations.commit_4. rewrite H4. reflexivity. }
  rewrite HB5 in Hkeep5. cbn [world_of fst snd] in Hkeep5.
  assert (Hs5 : forall p, In p (git_operations.gated_paths (World := World)) ->
                          p <> ".bash_profile.dir" ->
                          os_path_exists p s5 = String.eqb p "initialize.sh").
  { intros p Hp Hne. rewrite (Hkeep5 p Hp Hne). apply Hinit, Hp. }
  (* steps 5 and 6 and the config step are skipped *)
  assert (Hnone : forall f, In f git_operations.config_files ->
                            os_path_exists f s5 = false).
  { intros f [<-|[<-|[<-|[]]]];
      (rewrite Hs5 by first [discriminate|simpl; auto 12]); reflexivity. }
  destruct (returns_self (final_status_returns s5))
    as (tf & sf & a & Hfinal & _ & Hcf & Hkf & Hwf & before & Hpf).
  assert (Hmain :
    git_operations.main w =
      (([EvChdir git_operations.repo_path] ++
        ((((t0 ++ [EvExists ".automation/framework/core.sh"] ++
            [EvExists ".automation/auto"]) ++ t3) ++ t4) ++
         [EvExists ".automation/modules/tools.sh"] ++
         [EvExists "Makefile"] ++
         [EvPrint (nl ++ "=== Checking for additional project config files ===");
          EvExists "CLAUDE.md"; EvExists "package.json";
          EvExists "package-lock.json"] ++ tf))%list, sf, inl a)).
  { unfold git_operations.main.
    erewrite bind_returned
      by (unfold os.chdir; rewrite Hcd; reflexivity).
    rewrite body_before_commit_5.
    erewrite bind_returned by exact HB5.
    erewrite bind_returned
      by (apply guarded_step_skipped;
          rewrite Hs5 by first [discriminate|simpl; auto 12]; reflexivity).
    erewrite bind_returned
      by (apply guarded_step_skipped;
          rewrite Hs5 by first [discriminate|simpl; auto 12]; reflexivity).
    erewrite bind_returned by (apply commit_config_skipped, Hnone).
    rewrite Hfinal. reflexivity. }
  exists (trace_of (git_operations.main w)), sf, a.
  split; [rewrite Hmain; reflexivity|].
  rewrite Hmain. cbn [trace_of fst].
  assert (Hcommands :
    commands
      ([EvChdir git_operations.repo_path] ++
       ((((t0 ++ [EvExists ".automation/framework/core.sh"] ++
           [EvExists ".automation/auto"]) ++ t3) ++ t4) ++
        [EvExists ".automation/modules/tools.sh"] ++
        [EvExists "Makefile"] ++
        [EvPrint (nl ++ "=== Checking for additional project config files ===");
         EvExists "CLAUDE.md"; EvExists "package.json";
         EvExists "package-lock.json"] ++ tf)) =
    ("git status"
       :: "git checkout -b fix/automation-framework-compatibility"
       :: (if branch_created w1 then []
           else ["git checkout fix/automation-framework-compatibility"])
       ++ ["git add .bash_profile.dir/";
           git_operations.git_commit git_operations.commit_msg_3;
           "git add initialize.sh";
           git_operations.git_commit git_operations.commit_msg_4;
           "git status";
           "git log --oneline -10"])%list).
  { read_trace. destruct (branch_created w1); reflexivity. }
  split; [exact Hcommands|].
  split; [read_trace; reflexivity|].
  split; [unfold commit_commands; rewrite Hcommands;
          destruct (branch_created w1); reflexivity|].
  split; [read_trace; reflexivity|]. split.
  - eexists _, s5, tf, a. split; [exact Hfinal|].
    rewrite !app_assoc. reflexivity.
  - rewrite !app_assoc, printed_app, Hpf, app_assoc. eexists. reflexivity.
Qed.

End OnlyInitialize.

(** ** Whole runs on the scripted machines *)

Lemma only_initialize_sh_run_witness :
  returns git_operations.main Fixtures.branch_there
    (fun t w' _ =>
       commands t =
         ["git status";
          "git checkout -b fix/automation-framework-compatibility";
          "git checkout fix/automation-framework-compatibility";
          "git add .bash_profile.dir/";
          git_operations.git_commit git_operations.commit_msg_3;
          "git add initialize.sh";
          git_operations.git_commit git_operations.commit_msg_4;
          "git status";
          "git log --oneline -10"] /\
       checks t = git_operations.gated_paths (World := Scripted.machine) /\
       length (commit_commands t) = 2 /\
       writes t = profile_dir_writes /\
       ends_with git_operations.final_status t w' /\
       (exists before, printed t = (before ++ closing_lines)%list)) /\
  returns git_operations.main Scripted.only_initialize
    (fun t w' _ =>
       commands t =
         ["git status";
          "git checkout -b fix/automation-framework-compatibility";
          "git add .bash_profile.dir/";
          git_operations.git_commit git_operations.commit_msg_3;
          "git add initialize.sh";
          git_operations.git_commit git_operations.commit_msg_4;
          "git status";
          "git log --oneline -10"] /\
       checks t = git_operations.gated_paths (World := Scripted.machine) /\
       length (commit_commands t) = 2 /\
       writes t = profile_dir_writes /\
       ends_with git_operations.final_status t w' /\
       (exists before, printed t = (before ++ closing_lines)%list)).
Proof.
  assert (Honly : forall rs,
            only_initialize_sh (Scripted.mkMachine true ["initialize.sh"] rs)).
  { intros rs p Hp. simpl in Hp.
    repeat (destruct Hp as [<-|Hp]; [reflexivity|]). contradiction. }
  assert (Hkeeps : forall rs rs',
            keeps_tested_paths
              (Scripted.mkMachine true ["initialize.sh"] rs)
              (Scripted.mkMachine true
                 [".bash_profile.dir/.gitkeep"; ".bash_profile.dir";
                  "initialize.sh"] rs')).
  { intros rs rs' p Hp Hne. simpl in Hp.
    repeat (destruct Hp as [<-|Hp];
            [first [reflexivity|contradiction Hne; reflexivity]|]).
    contradiction. }
  assert (Hsame : same_tested_paths Fixtures.branch_there
                    (world_of (before_commit_1 Fixtures.branch_there)))
    by (intros p _; reflexivity).
  assert (Hsame' : same_tested_paths Scripted.only_initialize
                     (world_of (before_commit_1 Scripted.only_initialize)))
    by (intros p _; reflexivity).
  assert (Hwritable : forall m : Scripted.machine, profile_dir_writable m).
  { intros m _. eexists _, _. split; reflexivity. }
  split.
  - exact (@only_initialize_sh_run _ _ Fixtures.branch_there
             Fixtures.branch_there eq_refl (Honly _) Hsame (Hwritable _)
             (Hkeeps _ _) (Hkeeps _ _)).
  - exact (@only_initialize_sh_run _ _ Scripted.only_initialize
             Scripted.only_initialize eq_refl (Honly _) Hsame'
             (Hwritable _) (Hkeeps _ _) (Hkeeps _ _)).
Defined.

Lemma git_operations_runs_to_completion_witness :
  returns git_operations.main Fixtures.rough_run
    (fun t w' _ =>
       checks t = git_operations.gated_paths (World := Scripted.machine) /\
       ends_with git_operations.final_status t w' /\
       (exists t0,
          commands t = (t0 ++ ["git status"; "git log --oneline -10"])%list) /\
       (exists before, printed t = (before ++ closing_lines)%list)) /\
  returns git_operations.main Fixtures.shell_missing
    (fun t w' _ =>
       checks t = git_operations.gated_paths (World := Scripted.machine) /\
       ends_with git_operations.final_status t w' /\
       (exists t0,
          commands t = (t0 ++ ["git status"; "git log --oneline -10"])%list) /\
       (exists before, printed t = (before ++ closing_lines)%list)) /\
  commands (trace_of (git_operations.main Fixtures.rough_run)) =
    ["git status";
     "git checkout -b fix/automation-framework-compatibility";
     "git checkout fix/automation-framework-compatibility";
     "git add .bash_profile.dir/";
     git_operations.git_commit git_operations.commit_msg_3;
     "git add CLAUDE.md";
     "git diff --cached --quiet";
     git_operations.git_commit git_operations.commit_msg_config;
     "git status";
     "git log --oneline -10"] /\
  writes (trace_of (git_operations.main Fixtures.rough_run)) =
    profile_dir_writes.
Proof.
  split; [|split; [|split; reflexivity]].
  - apply (@git_operations_runs_to_completion _ _ Fixtures.rough_run
             Fixtures.rough_run).
    + reflexivity.
    + intros _. eexists _, _. split; reflexivity.
    + intros f fs _. eexists _, _. reflexivity.
  - apply (@git_operations_runs_to_completion _ _ Fixtures.shell_missing
             Fixtures.shell_missing).
    + reflexivity.
    + intros Hmissing. vm_compute in Hmissing. discriminate.
    + intros f fs Hfiles. vm_compute in Hfiles. discriminate.
Defined.

Lemma scripts_write_only_profile_dir_witness :
  writes (trace_of (run_git_commands.main Scripted.branch_taken)) = [] /\
  writes (trace_of (git_operations.main Scripted.no_repo)) = [] /\
  writes (trace_of (git_operations.main Scripted.only_initialize)) =
    profile_dir_writes /\
  writes (trace_of (git_operations.main Scripted.with_profile_dir)) = [] /\
  writes (trace_of (git_operations.commit_3 Guarded.no_mkdir)) =
    [EvMakedirs ".bash_profile.dir" true].
Proof.
  destruct (scripts_write_only_profile_dir Scripted.branch_taken)
    as (Hnone & _).
  destruct (scripts_write_only_profile_dir Scripted.no_repo)
    as (_ & Hstopped & _).
  destruct (scripts_write_only_profile_dir Scripted.only_initialize)
    as (_ & _ & Hstep & _).
  destruct (scripts_write_only_profile_dir Scripted.with_profile_dir)
    as (_ & _ & Hstep' & _).
  destruct (scripts_write_only_profile_dir
              (world_of (before_commit_3 Scripted.only_initialize)))
    as (_ & _ & _ & _ & Hmissing).
  destruct (scripts_write_only_profile_dir
              (world_of (before_commit_3 Scripted.with_profile_dir)))
    as (_ & _ & _ & Hpresent & _).
  destruct (scripts_write_only_profile_dir Guarded.no_mkdir)
    as (_ & _ & _ & _ & Hdenied).
  split; [exact Hnone|]. split; [exact (Hstopped _ _ eq_refl)|].
  split; [|split].
  - rewrite (Hstep _ eq_refl). exact (Hmissing eq_refl).
  - rewrite (Hstep' _ eq_refl). exact (Hpresent eq_refl).
  - exact (Hdenied eq_refl).
Defined.
